(** * backend.py: the HTTP gateway and its request handlers

    A shallow embedding of [backend.py], a Flask application that forwards
    client requests to three third-party services (CoinGecko, Moralis and
    Telegram) and reshapes their answers.

    - Python values that travel as JSON are the inductive [pyval].
    - The module globals read from the environment at import time are the
      record [Config].
    - Each handler is a computation in the monad [M]: it reads the
      environment (the upstream services, the clock), may perform an
      upstream call or print a line, and either returns or raises. *)

From Stdlib Require Import String Ascii List ZArith Bool Lia PrimFloat.
From Stdlib Require Import DecimalString.
Import ListNotations.
Open Scope string_scope.
Open Scope Z_scope.
Set Warnings "-register-all".

(** ** Python values *)

(** What [response.json()] and [request.get_json()] produce and what
    [jsonify] consumes.  JSON numbers parse to [int] (unbounded) or to
    [float] (binary64).  A [dict] lists its items, one per key, in
    insertion order, and [dict_lookup] returns the item stored under the
    key.  A string is a sequence of code points below 256. *)
Inductive pyval : Type :=
| PNone
| PBool (b : bool)
| PInt (z : Z)
| PFloat (f : float)
| PStr (s : string)
| PList (l : list pyval)
| PDict (items : list (string * pyval)).

(** The exceptions the program meets.  [UnsupportedMediaType] and
    [BadRequest] are the HTTP exceptions that Flask raises from
    [request.get_json()]; [InvalidJSONError] and [RequestException] come
    from [requests]. *)
Inductive exception : Type :=
| AttributeError (msg : string)
| TypeError (msg : string)
| KeyError (msg : string)
| JSONDecodeError (msg : string)
| RequestException (msg : string)
| InvalidJSONError (msg : string)
| UnsupportedMediaType (msg : string)
| BadRequest (msg : string).

(** [str(e)] *)
Definition str_of_exception (e : exception) : string :=
  match e with
  | AttributeError msg | TypeError msg | KeyError msg
  | JSONDecodeError msg | RequestException msg | InvalidJSONError msg
  | UnsupportedMediaType msg | BadRequest msg => msg
  end.

(** The outcome of evaluating a Python expression. *)
Inductive result (A : Type) : Type :=
| Ok (a : A)
| Raise (e : exception).
Arguments Ok {A} a.
Arguments Raise {A} e.

Module Py.

(** [type(v).__name__] *)
Definition type_name (v : pyval) : string :=
  match v with
  | PNone => "NoneType"
  | PBool _ => "bool"
  | PInt _ => "int"
  | PFloat _ => "float"
  | PStr _ => "str"
  | PList _ => "list"
  | PDict _ => "dict"
  end.

(** [bool(v)]: what [if v] tests and [not v] negates. *)
Definition truthy (v : pyval) : bool :=
  match v with
  | PNone => false
  | PBool b => b
  | PInt z => negb (z =? 0)
  | PFloat f => negb (PrimFloat.eqb f 0%float)
  | PStr s => match s with EmptyString => false | String _ _ => true end
  | PList l => match l with [] => false | _ :: _ => true end
  | PDict items => match items with [] => false | _ :: _ => true end
  end.

(** [v == True].  [True] is the integer 1, so a number equal to one
    compares equal to it. *)
Definition eq_True (v : pyval) : bool :=
  match v with
  | PBool b => b
  | PInt z => z =? 1
  | PFloat f => PrimFloat.eqb f 1%float
  | _ => false
  end.

(** [v is True] *)
Definition is_True (v : pyval) : bool :=
  match v with
  | PBool true => true
  | _ => false
  end.

Fixpoint dict_lookup (key : string) (items : list (string * pyval))
  : option pyval :=
  match items with
  | [] => None
  | (k, v) :: rest => if String.eqb key k then Some v else dict_lookup key rest
  end.

(** [obj.get(key, default)] *)
Definition get (obj : pyval) (key : string) (default : pyval) : result pyval :=
  match obj with
  | PDict items =>
      Ok (match dict_lookup key items with Some v => v | None => default end)
  | _ => Raise (AttributeError
                  ("'" ++ type_name obj ++ "' object has no attribute 'get'"))
  end.

(** [obj[key]] for a string key *)
Definition getitem (obj : pyval) (key : string) : result pyval :=
  match obj with
  | PDict items =>
      match dict_lookup key items with
      | Some v => Ok v
      | None => Raise (KeyError ("'" ++ key ++ "'"))
      end
  | PList _ => Raise (TypeError "list indices must be integers or slices, not str")
  | PStr _ => Raise (TypeError "string indices must be integers, not 'str'")
  | _ => Raise (TypeError ("'" ++ type_name obj ++ "' object is not subscriptable"))
  end.

Definition is_substring (needle hay : string) : bool :=
  match String.index 0 needle hay with
  | Some _ => true
  | None => false
  end.

(** [key in container] for a string key *)
Definition contains (container : pyval) (key : string) : result bool :=
  match container with
  | PDict items =>
      Ok (match dict_lookup key items with Some _ => true | None => false end)
  | PList l =>
      Ok (existsb (fun x => match x with
                            | PStr s => String.eqb s key
                            | _ => false
                            end) l)
  | PStr s => Ok (is_substring key s)
  | _ => Raise (TypeError
                  ("argument of type '" ++ type_name container ++ "' is not iterable"))
  end.

(** The elements a [for] loop or a comprehension draws from [v]. *)
Definition iter (v : pyval) : result (list pyval) :=
  match v with
  | PList l => Ok l
  | PDict items => Ok (map (fun kv => PStr (fst kv)) items)
  | PStr s => Ok (map (fun c => PStr (String c "")) (list_ascii_of_string s))
  | _ => Raise (TypeError ("'" ++ type_name v ++ "' object is not iterable"))
  end.

(** The lower-case form of a code point below 256: the letters [A]-[Z]
    and the accented capitals from U+00C0 to U+00DE, the multiplication
    sign U+00D7 apart, lie 32 below their lower-case forms. *)
Definition lower_char (c : ascii) : ascii :=
  let n := N_of_ascii c in
  if (((65 <=? n) && (n <=? 90))
      || ((192 <=? n) && (n <=? 222) && negb (n =? 215)))%N
  then ascii_of_N (n + 32)
  else c.

(** [s.lower()] *)
Fixpoint lower (s : string) : string :=
  match s with
  | EmptyString => EmptyString
  | String c rest => String (lower_char c) (lower rest)
  end.

(** [bool(s)] for a value that is [None] or a [str]. *)
Definition present (s : option string) : bool :=
  match s with
  | Some (String _ _) => true
  | _ => false
  end.

Definition of_option (s : option string) : pyval :=
  match s with
  | Some x => PStr x
  | None => PNone
  end.

End Py.

(** ** Configuration: the module globals *)

(** Each is [os.getenv(...)]: [None] when the variable is unset, a string,
    possibly empty, when it is set. *)
Record Config : Type := {
  MORALIS_API_KEY : option string;
  COINGECKO_API_KEY : option string;
  TELEGRAM_BOT_TOKEN : option string;
  TELEGRAM_CHAT_ID : option string;
  USDT_ADDRESS : option string;
  SPENDER_ADDRESS : option string
}.

(** ** The outside world *)

Inductive http_method : Type := GET | POST.

(** One call of [requests.get] or [requests.post]. *)
Record UpstreamRequest : Type := {
  method : http_method;
  url : string;
  headers : list (string * string);
  params : list (string * string);
  json : option pyval
}.

Inductive payload : Type :=
| Json (v : pyval)
| Raw (bytes : string).

(** A [requests.Response]. *)
Record UpstreamResponse : Type := {
  status_code : Z;
  content : payload
}.

Inductive UpstreamResult : Type :=
| Completed (r : UpstreamResponse)
| Failed (description : string).

(** [datetime.now()] *)
Record datetime : Type := {
  year : Z; month : Z; day : Z;
  hour : Z; minute : Z; second : Z; microsecond : Z
}.

(** What a view function runs in: how the upstream services answer a call,
    what the clock reads, the upstream calls made so far (oldest first) and
    the lines printed so far. *)
Record World : Type := {
  upstream : UpstreamRequest -> UpstreamResult;
  clock : datetime;
  sent : list UpstreamRequest;
  stdout : list string
}.

(** The body of an incoming request, as [request.get_json()] meets it: a
    request that does not declare JSON content, one that declares it and
    whose body does not parse, or one whose body parses to a value (the
    value is [None] for the body [null]). *)
Inductive request_body : Type :=
| NotJson
| Malformed
| Parsed (v : pyval).

(** An incoming Flask request: the query string and the body. *)
Record Request : Type := {
  args : list (string * string);
  json_body : request_body
}.

(** What a view function returns: the dictionary given to [jsonify] and the
    HTTP status. *)
Record HttpResponse : Type := {
  body : pyval;
  status : Z
}.

(** ** The effect monad *)

Definition M (A : Type) : Type := World -> result A * World.

Definition ret {A} (a : A) : M A := fun w => (Ok a, w).

Definition bind {A B} (m : M A) (k : A -> M B) : M B :=
  fun w =>
    match m w with
    | (Ok a, w') => k a w'
    | (Raise e, w') => (Raise e, w')
    end.

Definition lift {A} (r : result A) : M A := fun w => (r, w).

(** [try: m  except Exception as e: handler e] *)
Definition try_except {A} (m : M A) (handler : exception -> M A) : M A :=
  fun w =>
    match m w with
    | (Ok a, w') => (Ok a, w')
    | (Raise e, w') => handler e w'
    end.

Notation "x <- m ;; k" := (bind m (fun x => k))
  (at level 61, m at next level, right associativity).
Notation "'try' m 'except' e => h" := (try_except m (fun e => h))
  (at level 62, m at level 61, e name, h at level 61).

(** ** Library calls *)

(** The world after one more upstream call, and after one more printed
    line. *)
Definition after_call (w : World) (rq : UpstreamRequest) : World :=
  {| upstream := upstream w; clock := clock w;
     sent := sent w ++ [rq]; stdout := stdout w |}.

Definition after_print (w : World) (line : string) : World :=
  {| upstream := upstream w; clock := clock w;
     sent := sent w; stdout := stdout w ++ [line] |}.

(** [requests.get] and [requests.post]: the call goes out, and either
    completes with a response or fails in transport, which raises. *)
Definition perform (rq : UpstreamRequest) : M UpstreamResponse :=
  fun w =>
    match upstream w rq with
    | Completed r => (Ok r, after_call w rq)
    | Failed description => (Raise (RequestException description), after_call w rq)
    end.

(** What [json.dumps(..., allow_nan=False)] accepts: a value that holds no
    float that is NaN or infinite. *)
Fixpoint json_compliant (v : pyval) : bool :=
  match v with
  | PFloat f => PrimFloat.is_finite f
  | PList l => forallb json_compliant l
  | PDict items => forallb (fun kv : string * pyval => let (_, x) := kv in json_compliant x) items
  | _ => true
  end.

Module requests.

Definition get (u : string) (hs ps : list (string * string)) : M UpstreamResponse :=
  perform {| method := GET; url := u; headers := hs; params := ps; json := None |}.

(** The body given as [json=] is serialised first, with [allow_nan=False]:
    a value that cannot be serialised raises and nothing is sent. *)
Definition post (u : string) (j : pyval) : M UpstreamResponse :=
  if json_compliant j then
    perform {| method := POST; url := u; headers := []; params := []; json := Some j |}
  else
    lift (Raise (InvalidJSONError "Out of range float values are not JSON compliant")).

End requests.

(** [response.json()] *)
Definition response_json (r : UpstreamResponse) : result pyval :=
  match content r with
  | Json v => Ok v
  | Raw _ => Raise (JSONDecodeError "Expecting value: line 1 column 1 (char 0)")
  end.

Definition print (line : string) : M unit :=
  fun w => (Ok tt, after_print w line).

Definition datetime_now : M datetime := fun w => (Ok (clock w), w).

Definition digit (n : Z) : ascii := ascii_of_N (Z.to_N (48 + n mod 10)).

(** [n] in decimal on [width] digits, as ["%0<width>d"] prints a number
    that fits. *)
Fixpoint zero_padded (width : nat) (n : Z) : string :=
  match width with
  | O => ""
  | S w => zero_padded w (n / 10) ++ String (digit n) ""
  end.

(** [d.isoformat()] of a naive datetime: the fraction is printed only when
    the microseconds are not zero. *)
Definition isoformat (d : datetime) : string :=
  zero_padded 4 (year d) ++ "-" ++ zero_padded 2 (month d) ++ "-"
  ++ zero_padded 2 (day d) ++ "T" ++ zero_padded 2 (hour d) ++ ":"
  ++ zero_padded 2 (minute d) ++ ":" ++ zero_padded 2 (second d)
  ++ (if microsecond d =? 0 then "" else "." ++ zero_padded 6 (microsecond d)).

(** [request.args.get(name)] *)
Fixpoint request_args_get (qs : list (string * string)) (name : string)
  : option string :=
  match qs with
  | [] => None
  | (k, v) :: rest => if String.eqb name k then Some v else request_args_get rest name
  end.

(** [request.get_json()]: the parsed body, or the HTTP exception that Flask
    raises when the request does not declare JSON content (415) or its body
    does not parse (400). *)
Definition get_json (req : Request) : result pyval :=
  match json_body req with
  | Parsed v => Ok v
  | NotJson =>
      Raise (UnsupportedMediaType
               "415 Unsupported Media Type: Did not attempt to load JSON data because the request Content-Type was not 'application/json'.")
  | Malformed =>
      Raise (BadRequest
               "400 Bad Request: The browser (or proxy) sent a request that this server could not understand.")
  end.

Definition jsonify (items : list (string * pyval)) : pyval := PDict items.

(** ** The view functions *)

Definition respond (items : list (string * pyval)) (code : Z) : HttpResponse :=
  {| body := jsonify items; status := code |}.

Definition health_check (req : Request) : M HttpResponse :=
  now <- datetime_now ;;
  ret (respond [("status", PStr "healthy");
                ("timestamp", PStr (isoformat now))] 200).

Definition get_token_price (cfg : Config) (req : Request) : M HttpResponse :=
  match request_args_get (args req) "token_address" with
  | Some (String _ _ as token_address) =>
      match COINGECKO_API_KEY cfg with
      | Some (String _ _ as api_key) =>
          try (
            let u := "https://api.coingecko.com/api/v3/simple/token_price/binance-smart-chain" in
            let ps := [("contract_addresses", token_address);
                       ("vs_currencies", "usd");
                       ("x_cg_demo_api_key", api_key)] in
            response <- requests.get u [] ps ;;
            if status_code response =? 200 then
              data <- lift (response_json response) ;;
              token_data <- lift (Py.get data (Py.lower token_address) (PDict [])) ;;
              price <- lift (Py.get token_data "usd" (PInt 0)) ;;
              ret (respond [("price", price);
                            ("token_address", PStr token_address)] 200)
            else
              ret (respond [("error", PStr "Failed to fetch price");
                            ("status_code", PInt (status_code response))] 500))
          except e => ret (respond [("error", PStr (str_of_exception e))] 500)
      | _ => ret (respond [("error", PStr "CoinGecko API key not configured")] 500)
      end
  | _ => ret (respond [("error", PStr "token_address parameter is required")] 400)
  end.

(** [[token for token in tokens if token.get('verified_contract') == True]]:
    the elements are visited in order and the first that has no [get]
    raises. *)
Fixpoint verified_only (tokens : list pyval) : result (list pyval) :=
  match tokens with
  | [] => Ok []
  | token :: rest =>
      match Py.get token "verified_contract" PNone with
      | Raise e => Raise e
      | Ok v =>
          match verified_only rest with
          | Raise e => Raise e
          | Ok kept => Ok (if Py.eq_True v then token :: kept else kept)
          end
      end
  end.

Definition get_wallet_tokens (cfg : Config) (req : Request) : M HttpResponse :=
  match request_args_get (args req) "address" with
  | Some (String _ _ as address) =>
      match MORALIS_API_KEY cfg with
      | Some (String _ _ as api_key) =>
          try (
            let u := "https://deep-index.moralis.io/api/v2/" ++ address ++ "/erc20" in
            let hs := [("accept", "application/json"); ("X-API-Key", api_key)] in
            let ps := [("chain", "bsc"); ("exclude_spam", "true")] in
            response <- requests.get u hs ps ;;
            if status_code response =? 200 then
              data <- lift (response_json response) ;;
              tokens <- lift (Py.get data "result" data) ;;
              elements <- lift (Py.iter tokens) ;;
              verified_tokens <- lift (verified_only elements) ;;
              ret (respond [("tokens", PList verified_tokens);
                            ("address", PStr address);
                            ("total_tokens",
                             PInt (Z.of_nat (length verified_tokens)))] 200)
            else
              ret (respond [("error", PStr "Failed to fetch wallet tokens");
                            ("status_code", PInt (status_code response))] 500))
          except e => ret (respond [("error", PStr (str_of_exception e))] 500)
      | _ => ret (respond [("error", PStr "Moralis API key not configured")] 500)
      end
  | _ => ret (respond [("error", PStr "address parameter is required")] 400)
  end.

(** [not data or 'message' not in data]; the membership test is evaluated
    only when [data] is truthy, and raises on a value that is no
    container. *)
Definition message_missing (data : pyval) : result bool :=
  if negb (Py.truthy data) then Ok true
  else match Py.contains data "message" with
       | Ok found => Ok (negb found)
       | Raise e => Raise e
       end.

Definition send_telegram (cfg : Config) (req : Request) : M HttpResponse :=
  data <- lift (get_json req) ;;
  missing <- lift (message_missing data) ;;
  if missing then ret (respond [("error", PStr "message is required")] 400)
  else
    match TELEGRAM_BOT_TOKEN cfg, TELEGRAM_CHAT_ID cfg with
    | Some (String _ _ as bot_token), Some (String _ _ as chat_id) =>
        try (
          let u := "https://api.telegram.org/bot" ++ bot_token ++ "/sendMessage" in
          text <- lift (Py.getitem data "message") ;;
          let payload := PDict [("chat_id", PStr chat_id);
                                ("text", text);
                                ("parse_mode", PStr "HTML")] in
          response <- requests.post u payload ;;
          if status_code response =? 200 then
            ret (respond [("success", PBool true);
                          ("message", PStr "Message sent successfully")] 200)
          else
            ret (respond [("error", PStr "Failed to send message");
                          ("status_code", PInt (status_code response))] 500))
        except e => ret (respond [("error", PStr (str_of_exception e))] 500)
    | _, _ => ret (respond [("error", PStr "Telegram credentials not configured")] 500)
    end.

(** [a and b] on two values that are [None] or a [str] *)
Definition py_and (a b : option string) : option string :=
  if Py.present a then b else a.

Definition get_config (cfg : Config) (req : Request) : M HttpResponse :=
  ret (respond
         [("usdt_address", Py.of_option (USDT_ADDRESS cfg));
          ("spender_address", Py.of_option (SPENDER_ADDRESS cfg));
          ("has_moralis_key", PBool (Py.present (MORALIS_API_KEY cfg)));
          ("has_coingecko_key", PBool (Py.present (COINGECKO_API_KEY cfg)));
          ("has_telegram_config",
           PBool (Py.present (py_and (TELEGRAM_BOT_TOKEN cfg)
                                     (TELEGRAM_CHAT_ID cfg))))] 200).

Section Webhook.

(** [json.dumps(data, indent=2)], the standard library's serialiser. *)
Variable json_dumps : pyval -> string.

Definition webhook (req : Request) : M HttpResponse :=
  data <- lift (get_json req) ;;
  if negb (Py.truthy data) then
    ret (respond [("error", PStr "No data provided")] 400)
  else
    _ <- print ("Webhook received: " ++ json_dumps data) ;;
    ret (respond [("success", PBool true);
                  ("message", PStr "Webhook processed successfully")] 200).

End Webhook.

Definition not_found (error : exception) : HttpResponse :=
  respond [("error", PStr "Endpoint not found")] 404.

Definition internal_error (error : exception) : HttpResponse :=
  respond [("error", PStr "Internal server error")] 500.

(** ** Reading a response *)

(** The value of a field of a JSON object. *)
Definition field (name : string) (v : pyval) : option pyval :=
  match v with
  | PDict items => Py.dict_lookup name items
  | _ => None
  end.

(** The upstream calls a run has added to the ones made before it. *)
Definition calls_made (w w' : World) (calls : list UpstreamRequest) : Prop :=
  sent w' = (sent w ++ calls)%list.

(** The call each forwarding view function is meant to send. *)
Definition token_price_call (token_address api_key : string) : UpstreamRequest :=
  {| method := GET;
     url := "https://api.coingecko.com/api/v3/simple/token_price/binance-smart-chain";
     headers := [];
     params := [("contract_addresses", token_address);
                ("vs_currencies", "usd");
                ("x_cg_demo_api_key", api_key)];
     json := None |}.

Definition wallet_tokens_call (address api_key : string) : UpstreamRequest :=
  {| method := GET;
     url := "https://deep-index.moralis.io/api/v2/" ++ address ++ "/erc20";
     headers := [("accept", "application/json"); ("X-API-Key", api_key)];
     params := [("chain", "bsc"); ("exclude_spam", "true")];
     json := None |}.

Definition telegram_call (bot_token chat_id : string) (text : pyval) : UpstreamRequest :=
  {| method := POST;
     url := "https://api.telegram.org/bot" ++ bot_token ++ "/sendMessage";
     headers := [];
     params := [];
     json := Some (PDict [("chat_id", PStr chat_id);
                          ("text", text);
                          ("parse_mode", PStr "HTML")]) |}.

Definition is_object (v : pyval) : bool :=
  match v with
  | PDict _ => true
  | _ => false
  end.

(** *** The shape of an ISO-8601 timestamp *)

Inductive glyph : Type :=
| Digit
| Lit (c : ascii).

Definition is_digit (c : ascii) : bool :=
  ((48 <=? N_of_ascii c) && (N_of_ascii c <=? 57))%N.

Fixpoint spells (pattern : list glyph) (s : string) : bool :=
  match pattern, s with
  | [], EmptyString => true
  | Digit :: p, String c rest => is_digit c && spells p rest
  | Lit l :: p, String c rest => Ascii.eqb l c && spells p rest
  | _, _ => false
  end.

(** [YYYY-MM-DDTHH:MM:SS], with an optional fraction [.ffffff]. *)
Definition iso_seconds : list glyph :=
  [Digit; Digit; Digit; Digit; Lit "-"; Digit; Digit; Lit "-"; Digit; Digit;
   Lit "T"; Digit; Digit; Lit ":"; Digit; Digit; Lit ":"; Digit; Digit].

Definition iso_fraction : list glyph :=
  [Lit "."; Digit; Digit; Digit; Digit; Digit; Digit].

Definition is_iso8601 (s : string) : bool :=
  spells iso_seconds s || spells (iso_seconds ++ iso_fraction) s.

(** ** Reading the environment and starting the server *)

(** [os.getenv], once [load_dotenv] has run: [None] for a variable that is
    not set. *)
Definition Environ : Type := string -> option string.


Definition required_vars : list string :=
  ["MORALIS_API_KEY"; "COINGECKO_API_KEY"; "USDT_ADDRESS"; "SPENDER_ADDRESS"].

(** The loop that fills [missing_vars]: a variable is appended when
    [not os.getenv(var)]. *)
Definition missing_vars (environ : Environ) : list string :=
  fold_left (fun missing var =>
               if negb (Py.present (environ var))
               then (missing ++ [var])%list
               else missing)
            required_vars [].

(** The warning, printed when [missing_vars] is not empty. *)
Definition warn (missing : list string) (w : World) : World :=
  match missing with
  | [] => w
  | _ :: _ =>
      let w1 := after_print w "WARNING: Missing environment variables:" in
      let w2 := fold_left (fun w' var => after_print w' ("  - " ++ var)) missing w1 in
      after_print w2 "Please set these in your .env file or environment"
  end.

(** The white space of [str.isspace], among the code points below 256. *)
Definition is_space (c : ascii) : bool :=
  let n := N_of_ascii c in
  (((9 <=? n) && (n <=? 13)) || ((28 <=? n) && (n <=? 32))
   || (n =? 133) || (n =? 160))%N.

(** The white space [int] skips around a literal: the ASCII characters tab
    to carriage return and the space, and the two white-space characters
    above 127, which [int] turns into spaces first.  The separators U+001C
    to U+001F are not among them. *)
Definition is_int_space (c : ascii) : bool :=
  let n := N_of_ascii c in
  (((9 <=? n) && (n <=? 13)) || (n =? 32) || (n =? 133) || (n =? 160))%N.

Fixpoint skip_spaces (s : string) : string :=
  match s with
  | EmptyString => EmptyString
  | String c rest => if is_int_space c then skip_spaces rest else s
  end.

Definition reversed (s : string) : string :=
  string_of_list_ascii (rev (list_ascii_of_string s)).

(** A string made of white space only. *)
Definition blank (s : string) : bool :=
  forallb is_space (list_ascii_of_string s).

(** The literal between the leading and the trailing white space. *)
Definition literal_of (s : string) : string :=
  reversed (skip_spaces (reversed (skip_spaces s))).

Definition is_decimal (c : ascii) : bool :=
  ((48 <=? N_of_ascii c) && (N_of_ascii c <=? 57))%N.

Definition count_decimals (s : string) : nat :=
  List.length (filter is_decimal (list_ascii_of_string s)).

(** The digits of an integer literal, read from the left.  An underscore
    may stand between two digits and nowhere else; [after_digit] tells
    whether the character before was a digit. *)
Fixpoint digits_value (s : string) (acc : Z) (after_digit : bool) : option Z :=
  match s with
  | EmptyString => if after_digit then Some acc else None
  | String c rest =>
      if is_decimal c
      then digits_value rest (10 * acc + (Z.of_N (N_of_ascii c) - 48)) true
      else if Ascii.eqb c "_" && after_digit
           then digits_value rest acc false
           else None
  end.

(** [int(s)] for a string: surrounding white space is skipped, a sign may
    come first, and a literal of more than 4300 digits is refused.  [None]
    stands for the [ValueError]. *)
Definition int_of_str (s : string) : option Z :=
  let body := literal_of s in
  if 4300 <? Z.of_nat (count_decimals body) then None
  else
    match body with
    | String "-" rest => option_map Z.opp (digits_value rest 0 false)
    | String "+" rest => digits_value rest 0 false
    | _ => digits_value body 0 false
    end.

(** [str(n)] for an integer. *)
Definition str_of_int (n : Z) : string :=
  DecimalString.NilZero.string_of_int (Z.to_int n).

(** How the script ends: in [app.run] with these arguments, or in the
    [ValueError] that [int] raises on the value of [PORT]. *)
Inductive startup : Type :=
| Serving (host : string) (port : Z) (debug : bool)
| ValueError (literal : string).

(** The [if __name__ == '__main__'] block. *)
Definition main (environ : Environ) (w : World) : startup * World :=
  let w1 := warn (missing_vars environ) w in
  match (match environ "PORT" with
         | Some value => int_of_str value
         | None => Some 8000
         end) with
  | Some port =>
      (Serving "0.0.0.0" port true,
       after_print w1 ("Starting backend server on port " ++ str_of_int port))
  | None =>
      (ValueError (match environ "PORT" with Some value => value | None => "" end),
       w1)
  end.

(** *** Shapes of payloads and responses *)

(** A 200 payload from which [get_token_price] can read a price: a JSON
    object whose entry under the lower-cased address, if any, is an
    object. *)
Definition price_payload_ok (token_address : string) (c : payload) : bool :=
  match c with
  | Json (PDict items) =>
      match Py.dict_lookup (Py.lower token_address) items with
      | Some entry => is_object entry
      | None => true
      end
  | _ => false
  end.

(** A response is either a success, status 200 and no [error] field, or a
    failure, status 400 or 500 and an [error] field that holds a string. *)
Definition envelope_ok (resp : HttpResponse) : Prop :=
  (status resp = 200 /\ field "error" (body resp) = None)
  \/ ((status resp = 400 \/ status resp = 500)
      /\ exists message, field "error" (body resp) = Some (PStr message)).

(** A truthy body that is no container: [true] or a number that is not
    zero. *)
Definition truthy_scalar (v : pyval) : bool :=
  match v with
  | PBool _ | PInt _ | PFloat _ => Py.truthy v
  | _ => false
  end.

(** An environment in which exactly the listed variables are set. *)
Definition environ_of (vars : list (string * string)) : Environ :=
  fun name => request_args_get vars name.

(** *** What the specification promises *)

(** The price as the specification words it: the [usd] entry stored under
    the lower-cased address, and 0 when the address or the entry is not
    there. *)
Definition usd_price (items : list (string * pyval)) (token_address : string)
  : pyval :=
  match Py.dict_lookup (Py.lower token_address) items with
  | Some entry =>
      match field "usd" entry with
      | Some price => price
      | None => PInt 0
      end
  | None => PInt 0
  end.

(** A token whose [verified_contract] compares equal to [True], and one
    whose [verified_contract] is the boolean [True] itself. *)
Definition verified (token : pyval) : bool :=
  match field "verified_contract" token with
  | Some v => Py.eq_True v
  | None => false
  end.

Definition verified_exactly (token : pyval) : bool :=
  match field "verified_contract" token with
  | Some v => Py.is_True v
  | None => false
  end.

Definition wallet_tokens_response (address : string) (kept : list pyval)
  : HttpResponse :=
  respond [("tokens", PList kept);
           ("address", PStr address);
           ("total_tokens", PInt (Z.of_nat (length kept)))] 200.

(** The wallet-token lookup as the specification words it: both payload
    shapes are served and the filter keeps the entries whose
    [verified_contract] is exactly the boolean true. *)
Definition wallet_tokens_as_specified (cfg : Config) (req : Request) (w : World)
  : Prop :=
  forall address api_key r tokens,
    request_args_get (args req) "address" = Some address -> address <> "" ->
    MORALIS_API_KEY cfg = Some api_key -> api_key <> "" ->
    upstream w (wallet_tokens_call address api_key) = Completed r ->
    status_code r = 200 ->
    (content r = Json (PList tokens)
     \/ exists items, content r = Json (PDict items)
                      /\ Py.dict_lookup "result" items = Some (PList tokens)) ->
    forallb is_object tokens = true ->
    fst (get_wallet_tokens cfg req w)
    = Ok (wallet_tokens_response address (filter verified_exactly tokens)).

(** The price lookup as the specification words it: every upstream answer
    with status 200 yields a price. *)
Definition token_price_as_specified (cfg : Config) (req : Request) (w : World)
  : Prop :=
  forall token_address api_key r,
    request_args_get (args req) "token_address" = Some token_address ->
    token_address <> "" ->
    COINGECKO_API_KEY cfg = Some api_key -> api_key <> "" ->
    upstream w (token_price_call token_address api_key) = Completed r ->
    status_code r = 200 ->
    exists price,
      fst (get_token_price cfg req w)
      = Ok (respond [("price", price);
                     ("token_address", PStr token_address)] 200).

(** A variable that is set, whatever it holds. *)
Definition is_set (s : option string) : bool :=
  match s with
  | Some _ => true
  | None => false
  end.

Definition same_addresses (c1 c2 : Config) : Prop :=
  USDT_ADDRESS c1 = USDT_ADDRESS c2 /\ SPENDER_ADDRESS c1 = SPENDER_ADDRESS c2.

(** Two configurations on which [test] tells the four credentials alike. *)
Definition same_credentials (test : option string -> bool) (c1 c2 : Config)
  : Prop :=
  test (MORALIS_API_KEY c1) = test (MORALIS_API_KEY c2)
  /\ test (COINGECKO_API_KEY c1) = test (COINGECKO_API_KEY c2)
  /\ test (TELEGRAM_BOT_TOKEN c1) = test (TELEGRAM_BOT_TOKEN c2)
  /\ test (TELEGRAM_CHAT_ID c1) = test (TELEGRAM_CHAT_ID c2).

(** The configuration view as the specification words it: the answer depends
    on the credentials only through their being set or unset. *)
Definition config_as_specified : Prop :=
  forall c1 c2 req w,
    same_addresses c1 c2 -> same_credentials is_set c1 c2 ->
    get_config c1 req w = get_config c2 req w.

(** A JSON body that is absent ([null]) or an empty string, array or
    object. *)
Definition empty_json (v : pyval) : bool :=
  match v with
  | PNone | PStr EmptyString | PList [] | PDict [] => true
  | _ => false
  end.

Definition webhook_accepted : HttpResponse :=
  respond [("success", PBool true);
           ("message", PStr "Webhook processed successfully")] 200.

Definition webhook_refused : HttpResponse :=
  respond [("error", PStr "No data provided")] 400.


(** The constancy of the webhook's answer as the specification words it:
    any two distinct non-empty payloads get the same response. *)
Definition webhook_constant_as_specified (json_dumps : pyval -> string) : Prop :=
  forall req1 req2 data1 data2 w1 w2,
    json_body req1 = Parsed data1 -> json_body req2 = Parsed data2 ->
    empty_json data1 = false -> empty_json data2 = false -> data1 <> data2 ->
    fst (webhook json_dumps req1 w1) = fst (webhook json_dumps req2 w2).

(** The three view functions that forward to an upstream service. *)
Definition forwarding_views : list (Config -> Request -> M HttpResponse) :=
  [get_token_price; get_wallet_tokens; send_telegram].

(** *** Sample inputs *)

Definition noon : datetime :=
  {| year := 2024; month := 3; day := 9;
     hour := 12; minute := 0; second := 0; microsecond := 0 |}.

(** A world whose upstream services cannot be reached, and one where they
    answer every call with [r]. *)
Definition offline : World :=
  {| upstream := fun _ => Failed "connection refused";
     clock := noon; sent := []; stdout := [] |}.

Definition answering (r : UpstreamResponse) : World :=
  {| upstream := fun _ => Completed r; clock := noon; sent := []; stdout := [] |}.

Definition all_set : Config :=
  {| MORALIS_API_KEY := Some "moralis-key";
     COINGECKO_API_KEY := Some "coingecko-key";
     TELEGRAM_BOT_TOKEN := Some "bot-token";
     TELEGRAM_CHAT_ID := Some "chat-id";
     USDT_ADDRESS := Some "0x55d3";
     SPENDER_ADDRESS := Some "0x7a25" |}.

Definition none_set : Config :=
  {| MORALIS_API_KEY := None; COINGECKO_API_KEY := None;
     TELEGRAM_BOT_TOKEN := None; TELEGRAM_CHAT_ID := None;
     USDT_ADDRESS := None; SPENDER_ADDRESS := None |}.

Definition asking (name value : string) : Request :=
  {| args := [(name, value)]; json_body := NotJson |}.

Definition posting (v : pyval) : Request :=
  {| args := []; json_body := Parsed v |}.

Definition bare : Request := {| args := []; json_body := NotJson |}.

(** A stand-in for the serialiser where a concrete one is needed. *)
Definition type_tag (v : pyval) : string := "<" ++ Py.type_name v ++ ">".

(** * Properties *)

(** ** Unfolding a run *)

Ltac run :=
  cbv beta delta [bind ret lift try_except requests.get requests.post
                  perform print datetime_now] iota zeta.

Lemma no_call_is_not_a_call {A} (l : list A) (x : A) : l <> (l ++ [x])%list.
Proof.
  intros H. apply (f_equal (@List.length A)) in H.
  rewrite length_app in H. simpl in H. lia.
Qed.

Lemma the_call_is_unique {A} (l : list A) (x y : A) :
  (l ++ [x] = l ++ [y])%list -> x = y.
Proof.
  intros H. apply app_inv_head in H. now inversion H.
Qed.

(** ** The timestamp *)

Lemma digit_is_digit (n : Z) : is_digit (digit n) = true.
Proof.
  unfold is_digit, digit.
  assert (H : 0 <= n mod 10 < 10) by (apply Z.mod_pos_bound; lia).
  rewrite N_ascii_embedding by lia.
  apply andb_true_intro; split; apply N.leb_le; lia.
Qed.

Lemma append_assoc (a b c : string) : (a ++ b) ++ c = a ++ (b ++ c).
Proof.
  induction a as [|x a IH]; cbn [append]; [reflexivity | now rewrite IH].
Qed.

Lemma append_empty (a : string) : a ++ "" = a.
Proof.
  induction a as [|x a IH]; cbn [append]; [reflexivity | now rewrite IH].
Qed.

Lemma spells_zero_padded (width : nat) :
  forall n p s,
    spells (repeat Digit width ++ p) (zero_padded width n ++ s) = spells p s.
Proof.
  induction width as [|width IH]; intros n p s.
  - reflexivity.
  - cbn [zero_padded].
    rewrite append_assoc.
    replace (repeat Digit (S width) ++ p)%list
      with (repeat Digit width ++ Digit :: p)%list
      by (clear; induction width; cbn [repeat app] in *; congruence).
    rewrite IH. cbn [append spells].
    now rewrite digit_is_digit.
Qed.

Lemma spells_lit (c : ascii) (p : list glyph) (s : string) :
  spells (Lit c :: p) (String c s) = spells p s.
Proof. cbn [spells]. now rewrite Ascii.eqb_refl. Qed.

Ltac spell :=
  repeat (rewrite spells_zero_padded; cbn [append]; try rewrite spells_lit).

Lemma isoformat_is_iso8601 (d : datetime) : is_iso8601 (isoformat d) = true.
Proof.
  unfold is_iso8601, isoformat.
  apply orb_true_iff.
  destruct (microsecond d =? 0); [left | right].
  - change iso_seconds with
      (repeat Digit 4 ++ Lit "-" :: repeat Digit 2 ++ Lit "-" :: repeat Digit 2
       ++ Lit "T" :: repeat Digit 2 ++ Lit ":" :: repeat Digit 2
       ++ Lit ":" :: repeat Digit 2 ++ [])%list.
    spell. reflexivity.
  - change (iso_seconds ++ iso_fraction)%list with
      (repeat Digit 4 ++ Lit "-" :: repeat Digit 2 ++ Lit "-" :: repeat Digit 2
       ++ Lit "T" :: repeat Digit 2 ++ Lit ":" :: repeat Digit 2
       ++ Lit ":" :: repeat Digit 2 ++ Lit "." :: repeat Digit 6 ++ [])%list.
    spell.
    rewrite <- (append_empty (zero_padded 6 (microsecond d))).
    spell. reflexivity.
Qed.

(** ** GET /health *)

(** C8.  Every [/health] request is answered with status 200 and the body
    [{status: "healthy", timestamp: t}], where [t] is the reading of the
    clock printed by [isoformat], a string of the ISO-8601 shape
    [YYYY-MM-DDTHH:MM:SS[.ffffff]].  The run cannot raise, sends nothing and
    prints nothing. *)
Theorem health_check_always_healthy (req : Request) (w : World) :
  exists t,
    health_check req w
    = (Ok {| body := PDict [("status", PStr "healthy"); ("timestamp", PStr t)];
             status := 200 |}, w)
    /\ t = isoformat (clock w)
    /\ is_iso8601 t = true.
Proof.
  exists (isoformat (clock w)).
  split; [reflexivity | split; [reflexivity | apply isoformat_is_iso8601]].
Qed.

(** ** GET /api/token-price: validation and configuration *)

(** C4.  A [/api/token-price] request whose [token_address] is missing or
    empty is answered 400 with an [error] field.  One whose [token_address]
    is there while the CoinGecko key is unset or empty is answered 500 with
    an [error] field.  In both cases the world is left as it was: no
    upstream call goes out. *)
Theorem get_token_price_fails_fast (cfg : Config) (req : Request) (w : World) :
  (Py.present (request_args_get (args req) "token_address") = false ->
   get_token_price cfg req w
   = (Ok {| body := PDict [("error", PStr "token_address parameter is required")];
            status := 400 |}, w))
  /\ (Py.present (request_args_get (args req) "token_address") = true ->
      Py.present (COINGECKO_API_KEY cfg) = false ->
      get_token_price cfg req w
      = (Ok {| body := PDict [("error", PStr "CoinGecko API key not configured")];
               status := 500 |}, w)).
Proof.
  unfold get_token_price.
  destruct (request_args_get (args req) "token_address") as [[|c rest]|];
    cbn [Py.present]; split; intros; try discriminate; try reflexivity.
  destruct (COINGECKO_API_KEY cfg) as [[|k key]|];
    cbn [Py.present] in *; try discriminate; reflexivity.
Qed.

Lemma get_token_price_fails_fast_witness :
  get_token_price all_set bare offline
  = (Ok {| body := PDict [("error", PStr "token_address parameter is required")];
           status := 400 |}, offline)
  /\ get_token_price none_set (asking "token_address" "0xABC") offline
     = (Ok {| body := PDict [("error", PStr "CoinGecko API key not configured")];
              status := 500 |}, offline).
Proof.
  split.
  - apply (proj1 (get_token_price_fails_fast all_set bare offline)).
    reflexivity.
  - apply (proj2 (get_token_price_fails_fast
                    none_set (asking "token_address" "0xABC") offline));
      reflexivity.
Defined.

(** ** Upstream failures *)

(** The run made no call, so the call in [Hs] is not its own. *)
Ltac no_call :=
  let Hs := fresh "Hs" in
  intros [= <- <-] Hs; now apply no_call_is_not_a_call in Hs.

(** Case analysis on every [match] and [if] that is left in the run. *)
Ltac paths :=
  repeat (cbv beta iota;
          match goal with
          | |- context [match ?x with _ => _ end] =>
              lazymatch type of x with
              | prod _ _ => fail
              | _ => destruct x eqn:?
              end
          end);
  cbv beta iota.

(** The run made the call [call], answered by [Hup]: identify it with the
    call and the answer of the hypotheses. *)
Ltac same_call Hup :=
  let Hs := fresh "Hs" in
  let Hr := fresh "Hr" in
  cbv beta iota; intros [= <- <-] Hs Hr; cbn [sent] in Hs;
  apply the_call_is_unique in Hs; subst;
  rewrite Hup in Hr; first [discriminate Hr | injection Hr as ->].

Lemma get_token_price_upstream_status cfg req w out w' rq r :
  get_token_price cfg req w = (out, w') ->
  calls_made w w' [rq] ->
  upstream w rq = Completed r ->
  status_code r <> 200 ->
  out = Ok (respond [("error", PStr "Failed to fetch price");
                     ("status_code", PInt (status_code r))] 500).
Proof.
  unfold get_token_price, calls_made.
  destruct (request_args_get (args req) "token_address") as [[|c rest]|];
    try no_call.
  destruct (COINGECKO_API_KEY cfg) as [[|k key]|]; try no_call.
  run.
  match goal with |- context [upstream w ?c] => set (call := c) end.
  destruct (upstream w call) as [r0|d] eqn:Hup.
  - destruct (status_code r0 =? 200) eqn:Hcode.
    + paths; same_call Hup; intros Hne; apply Z.eqb_eq in Hcode; contradiction.
    + same_call Hup. reflexivity.
  - same_call Hup.
Qed.

Lemma get_wallet_tokens_upstream_status cfg req w out w' rq r :
  get_wallet_tokens cfg req w = (out, w') ->
  calls_made w w' [rq] ->
  upstream w rq = Completed r ->
  status_code r <> 200 ->
  out = Ok (respond [("error", PStr "Failed to fetch wallet tokens");
                     ("status_code", PInt (status_code r))] 500).
Proof.
  unfold get_wallet_tokens, calls_made.
  destruct (request_args_get (args req) "address") as [[|c rest]|];
    try no_call.
  destruct (MORALIS_API_KEY cfg) as [[|k key]|]; try no_call.
  run.
  match goal with |- context [upstream w ?c] => set (call := c) end.
  destruct (upstream w call) as [r0|d] eqn:Hup.
  - destruct (status_code r0 =? 200) eqn:Hcode.
    + paths; same_call Hup; intros Hne; apply Z.eqb_eq in Hcode; contradiction.
    + same_call Hup. reflexivity.
  - same_call Hup.
Qed.

Lemma send_telegram_upstream_status cfg req w out w' rq r :
  send_telegram cfg req w = (out, w') ->
  calls_made w w' [rq] ->
  upstream w rq = Completed r ->
  status_code r <> 200 ->
  out = Ok (respond [("error", PStr "Failed to send message");
                     ("status_code", PInt (status_code r))] 500).
Proof.
  unfold send_telegram, calls_made. run.
  destruct (get_json req) as [data|e]; try no_call.
  destruct (message_missing data) as [[|]|e]; try no_call.
  destruct (TELEGRAM_BOT_TOKEN cfg) as [[|c token]|]; try no_call;
    destruct (TELEGRAM_CHAT_ID cfg) as [[|k chat]|]; try no_call.
  destruct (Py.getitem data "message") as [text|e]; try no_call.
  match goal with
  | |- context [json_compliant ?j] => destruct (json_compliant j)
  end; cbv beta iota; try no_call.
  match goal with |- context [upstream w ?c] => set (call := c) end.
  destruct (upstream w call) as [r0|d] eqn:Hup.
  - destruct (status_code r0 =? 200) eqn:Hcode.
    + same_call Hup; intros Hne; apply Z.eqb_eq in Hcode; contradiction.
    + same_call Hup. reflexivity.
  - same_call Hup.
Qed.

(** X5.  No forwarding view function retries or calls twice: a run leaves
    the world as it was, or adds exactly one upstream call to it, and it
    prints nothing. *)
Lemma forwarding_views_call_at_most_once
  (view : Config -> Request -> M HttpResponse) (cfg : Config) (req : Request)
  (w : World) :
  In view forwarding_views ->
  snd (view cfg req w) = w \/ exists rq, snd (view cfg req w) = after_call w rq.
Proof.
  intros [<-|[<-|[<-|[]]]].
  - unfold get_token_price.
    destruct (request_args_get (args req) "token_address") as [[|c rest]|];
      try (now left).
    destruct (COINGECKO_API_KEY cfg) as [[|k key]|]; try (now left).
    right. run.
    match goal with |- context [upstream w ?c] => exists c; destruct (upstream w c) end;
      paths; reflexivity.
  - unfold get_wallet_tokens.
    destruct (request_args_get (args req) "address") as [[|c rest]|];
      try (now left).
    destruct (MORALIS_API_KEY cfg) as [[|k key]|]; try (now left).
    right. run.
    match goal with |- context [upstream w ?c] => exists c; destruct (upstream w c) end;
      paths; reflexivity.
  - unfold send_telegram. run.
    destruct (get_json req) as [data|e]; try (now left).
    destruct (message_missing data) as [[|]|e]; try (now left).
    destruct (TELEGRAM_BOT_TOKEN cfg) as [[|c token]|]; try (now left);
      destruct (TELEGRAM_CHAT_ID cfg) as [[|k chat]|]; try (now left).
    destruct (Py.getitem data "message") as [text|e]; try (now left).
    match goal with
    | |- context [json_compliant ?j] => destruct (json_compliant j)
    end; cbv beta iota; try (now left).
    right.
    match goal with |- context [upstream w ?c] => exists c; destruct (upstream w c) end;
      paths; reflexivity.
Qed.

(** A request that passes both checks of a forwarding view function is
    sent on, and an upstream status other than 200 comes back inside a
    500. *)
Lemma get_token_price_non_200
  cfg req w (token_address api_key : string) (r : UpstreamResponse) :
  request_args_get (args req) "token_address" = Some token_address ->
  token_address <> "" ->
  COINGECKO_API_KEY cfg = Some api_key -> api_key <> "" ->
  upstream w (token_price_call token_address api_key) = Completed r ->
  status_code r <> 200 ->
  get_token_price cfg req w
  = (Ok {| body := PDict [("error", PStr "Failed to fetch price");
                          ("status_code", PInt (status_code r))];
           status := 500 |},
     after_call w (token_price_call token_address api_key)).
Proof.
  intros Hargs Haddr Hkey Hapi Hup Hcode.
  unfold get_token_price. rewrite Hargs, Hkey.
  destruct token_address as [|c rest]; [congruence|].
  destruct api_key as [|k key]; [congruence|].
  run. unfold token_price_call in Hup. rewrite Hup.
  now rewrite (proj2 (Z.eqb_neq _ _) Hcode).
Qed.

Lemma get_wallet_tokens_non_200
  cfg req w (address api_key : string) (r : UpstreamResponse) :
  request_args_get (args req) "address" = Some address -> address <> "" ->
  MORALIS_API_KEY cfg = Some api_key -> api_key <> "" ->
  upstream w (wallet_tokens_call address api_key) = Completed r ->
  status_code r <> 200 ->
  get_wallet_tokens cfg req w
  = (Ok {| body := PDict [("error", PStr "Failed to fetch wallet tokens");
                          ("status_code", PInt (status_code r))];
           status := 500 |},
     after_call w (wallet_tokens_call address api_key)).
Proof.
  intros Hargs Haddr Hkey Hapi Hup Hcode.
  unfold get_wallet_tokens. rewrite Hargs, Hkey.
  destruct address as [|c rest]; [congruence|].
  destruct api_key as [|k key]; [congruence|].
  run. unfold wallet_tokens_call in Hup. rewrite Hup.
  now rewrite (proj2 (Z.eqb_neq _ _) Hcode).
Qed.

(** The run of [send_telegram] on an object that holds a message which can
    be serialised, with both credentials configured: the call goes out and
    the upstream's answer decides. *)
Lemma send_telegram_sends
  cfg req w (items : list (string * pyval)) (text : pyval)
  (bot_token chat_id : string) :
  json_body req = Parsed (PDict items) ->
  Py.dict_lookup "message" items = Some text ->
  json_compliant text = true ->
  TELEGRAM_BOT_TOKEN cfg = Some bot_token -> bot_token <> "" ->
  TELEGRAM_CHAT_ID cfg = Some chat_id -> chat_id <> "" ->
  send_telegram cfg req w
  = (match upstream w (telegram_call bot_token chat_id text) with
     | Completed r =>
         if status_code r =? 200
         then Ok (respond [("success", PBool true);
                           ("message", PStr "Message sent successfully")] 200)
         else Ok (respond [("error", PStr "Failed to send message");
                           ("status_code", PInt (status_code r))] 500)
     | Failed description => Ok (respond [("error", PStr description)] 500)
     end,
     after_call w (telegram_call bot_token chat_id text)).
Proof.
  intros Hbody Hmessage Hcompliant Htoken Hnonempty Hchat Hnonempty'.
  unfold send_telegram, get_json, message_missing. rewrite Hbody, Htoken, Hchat.
  destruct bot_token as [|c token]; [congruence|].
  destruct chat_id as [|k chat]; [congruence|].
  assert (Htruthy : Py.truthy (PDict items) = true)
    by (destruct items; [discriminate Hmessage | reflexivity]).
  run. rewrite Htruthy. cbn [negb Py.contains Py.getitem]. rewrite Hmessage.
  cbn [negb json_compliant forallb]. rewrite Hcompliant. cbn [andb].
  unfold telegram_call.
  match goal with |- context [upstream w ?c] => destruct (upstream w c) as [r0|d] end.
  - destruct (status_code r0 =? 200); reflexivity.
  - reflexivity.
Qed.

(** C5.  In each of the three forwarding view functions a request that
    passes the parameter check and the configuration check is sent to the
    upstream, and when the upstream answers it with a status other than 200
    the response has HTTP status 500 and its body holds an [error] field and
    a [status_code] field equal to the upstream's status, which is never
    used as the status of the response.  For [/api/send-telegram] the
    request that is sent on is one whose body is an object with a message
    that can be serialised.  The last part says the same of every run that
    has sent a call, whatever the request was. *)
Theorem upstream_status_is_carried_in_a_500_body
  (cfg : Config) (req : Request) (w : World) (r : UpstreamResponse) :
  status_code r <> 200 ->
  (forall token_address api_key,
      request_args_get (args req) "token_address" = Some token_address ->
      token_address <> "" ->
      COINGECKO_API_KEY cfg = Some api_key -> api_key <> "" ->
      upstream w (token_price_call token_address api_key) = Completed r ->
      get_token_price cfg req w
      = (Ok {| body := PDict [("error", PStr "Failed to fetch price");
                              ("status_code", PInt (status_code r))];
               status := 500 |},
         after_call w (token_price_call token_address api_key)))
  /\ (forall address api_key,
         request_args_get (args req) "address" = Some address ->
         address <> "" ->
         MORALIS_API_KEY cfg = Some api_key -> api_key <> "" ->
         upstream w (wallet_tokens_call address api_key) = Completed r ->
         get_wallet_tokens cfg req w
         = (Ok {| body := PDict [("error", PStr "Failed to fetch wallet tokens");
                                 ("status_code", PInt (status_code r))];
                  status := 500 |},
            after_call w (wallet_tokens_call address api_key)))
  /\ (forall items text bot_token chat_id,
         json_body req = Parsed (PDict items) ->
         Py.dict_lookup "message" items = Some text ->
         json_compliant text = true ->
         TELEGRAM_BOT_TOKEN cfg = Some bot_token -> bot_token <> "" ->
         TELEGRAM_CHAT_ID cfg = Some chat_id -> chat_id <> "" ->
         upstream w (telegram_call bot_token chat_id text) = Completed r ->
         send_telegram cfg req w
         = (Ok {| body := PDict [("error", PStr "Failed to send message");
                                 ("status_code", PInt (status_code r))];
                  status := 500 |},
            after_call w (telegram_call bot_token chat_id text)))
  /\ (forall view out w' rq,
         In view forwarding_views ->
         view cfg req w = (out, w') ->
         calls_made w w' [rq] ->
         upstream w rq = Completed r ->
         exists resp message,
           out = Ok resp
           /\ status resp = 500
           /\ field "error" (body resp) = Some (PStr message)
           /\ field "status_code" (body resp) = Some (PInt (status_code r))).
Proof.
  intros Hcode. repeat apply conj.
  - intros token_address api_key Hargs Haddr Hkey Hapi Hup.
    now apply get_token_price_non_200.
  - intros address api_key Hargs Haddr Hkey Hapi Hup.
    now apply get_wallet_tokens_non_200.
  - intros items text bot_token chat_id Hbody Hmessage Hcompliant
           Htoken Hnonempty Hchat Hnonempty' Hup.
    rewrite (send_telegram_sends cfg req w items text bot_token chat_id)
      by assumption.
    rewrite Hup. now rewrite (proj2 (Z.eqb_neq _ _) Hcode).
  - intros view out w' rq Hview Hrun Hsent Hup.
    destruct Hview as [<-|[<-|[<-|[]]]].
    + rewrite (get_token_price_upstream_status _ _ _ _ _ _ _ Hrun Hsent Hup Hcode).
      do 2 eexists. repeat split.
    + rewrite (get_wallet_tokens_upstream_status _ _ _ _ _ _ _ Hrun Hsent Hup Hcode).
      do 2 eexists. repeat split.
    + rewrite (send_telegram_upstream_status _ _ _ _ _ _ _ Hrun Hsent Hup Hcode).
      do 2 eexists. repeat split.
Qed.

Lemma upstream_status_is_carried_in_a_500_body_witness :
  let r := {| status_code := 503; content := Raw "Service Unavailable" |} in
  let req := posting (PDict [("message", PStr "hi")]) in
  send_telegram all_set req (answering r)
  = (Ok {| body := PDict [("error", PStr "Failed to send message");
                          ("status_code", PInt 503)];
           status := 500 |},
     after_call (answering r) (telegram_call "bot-token" "chat-id" (PStr "hi"))).
Proof.
  intros r req.
  assert (Hcode : status_code r <> 200) by (simpl; lia).
  apply (proj1 (proj2 (proj2 (upstream_status_is_carried_in_a_500_body
                                all_set req (answering r) r Hcode)))
           [("message", PStr "hi")] (PStr "hi") "bot-token" "chat-id");
    try reflexivity; discriminate.
Defined.

(** ** GET /api/wallet-tokens *)

Lemma verified_only_objects (tokens : list pyval) :
  forallb is_object tokens = true ->
  verified_only tokens = Ok (filter verified tokens).
Proof.
  induction tokens as [|token rest IH]; cbn [forallb verified_only filter].
  - reflexivity.
  - intros H. apply andb_prop in H as [Hobj Hrest].
    rewrite (IH Hrest).
    destruct token as [| | | | | |inner]; try discriminate.
    unfold verified. cbn [Py.get field].
    destruct (Py.dict_lookup "verified_contract" inner); reflexivity.
Qed.

(** C1, amended.  For a [/api/wallet-tokens] request with a non-empty
    [address] and a configured Moralis key, when the upstream answers 200
    with an object that nests a list of token objects under [result], the
    response is 200 and carries the entries of that list whose
    [verified_contract] compares equal to [True] (the boolean true, or a
    number equal to one), in their order, with [total_tokens] the length of
    that filtered list and [address] the queried address.  Exactly one
    upstream call is sent. *)
Theorem get_wallet_tokens_keeps_verified
  (cfg : Config) (req : Request) (w : World) (address api_key : string)
  (r : UpstreamResponse) (items : list (string * pyval)) (tokens : list pyval) :
  request_args_get (args req) "address" = Some address -> address <> "" ->
  MORALIS_API_KEY cfg = Some api_key -> api_key <> "" ->
  upstream w (wallet_tokens_call address api_key) = Completed r ->
  status_code r = 200 ->
  content r = Json (PDict items) ->
  Py.dict_lookup "result" items = Some (PList tokens) ->
  forallb is_object tokens = true ->
  get_wallet_tokens cfg req w
  = (Ok {| body := PDict [("tokens", PList (filter verified tokens));
                          ("address", PStr address);
                          ("total_tokens",
                           PInt (Z.of_nat (length (filter verified tokens))))];
           status := 200 |},
     after_call w (wallet_tokens_call address api_key)).
Proof.
  intros Hargs Haddr Hkey Hapi Hup Hcode Hcontent Hresult Hobjects.
  unfold get_wallet_tokens. rewrite Hargs, Hkey.
  destruct address as [|c rest]; [congruence|].
  destruct api_key as [|k key]; [congruence|].
  run. unfold wallet_tokens_call in Hup. rewrite Hup.
  rewrite (proj2 (Z.eqb_eq _ _) Hcode). cbv beta iota.
  unfold response_json. rewrite Hcontent. cbn [Py.get]. rewrite Hresult.
  cbn [Py.iter]. rewrite (verified_only_objects _ Hobjects).
  reflexivity.
Qed.

Lemma get_wallet_tokens_keeps_verified_witness :
  let tokens := [PDict [("symbol", PStr "CAKE"); ("verified_contract", PBool true)];
                 PDict [("symbol", PStr "SCAM"); ("verified_contract", PBool false)]] in
  let r := {| status_code := 200; content := Json (PDict [("result", PList tokens)]) |} in
  get_wallet_tokens all_set (asking "address" "0x1") (answering r)
  = (Ok {| body := PDict [("tokens", PList (filter verified tokens));
                          ("address", PStr "0x1");
                          ("total_tokens",
                           PInt (Z.of_nat (length (filter verified tokens))))];
           status := 200 |},
     after_call (answering r) (wallet_tokens_call "0x1" "moralis-key")).
Proof.
  intros tokens r.
  apply (get_wallet_tokens_keeps_verified
           all_set (asking "address" "0x1") (answering r) "0x1" "moralis-key"
           r [("result", PList tokens)] tokens);
    try reflexivity; discriminate.
Defined.

(** C1 as worded fails: an entry whose [verified_contract] is the number 1
    is kept, although it is not the boolean true. *)
Lemma wallet_tokens_keeps_the_number_one :
  ~ wallet_tokens_as_specified
      all_set (asking "address" "0x1")
      (answering
         {| status_code := 200;
            content := Json (PDict [("result",
                                     PList [PDict [("verified_contract", PInt 1)]])]) |}).
Proof.
  intros H.
  specialize (H "0x1" "moralis-key" _ [PDict [("verified_contract", PInt 1)]]
                eq_refl ltac:(discriminate) eq_refl ltac:(discriminate)
                eq_refl eq_refl).
  specialize (H (or_intror (ex_intro _ _ (conj eq_refl eq_refl))) eq_refl).
  vm_compute in H. discriminate H.
Qed.

(** A payload that is the list itself is not served: [data.get] raises on
    a list, and the handler answers 500. *)
Lemma get_wallet_tokens_direct_list
  (cfg : Config) (req : Request) (w : World) (address api_key : string)
  (r : UpstreamResponse) (tokens : list pyval) :
  request_args_get (args req) "address" = Some address -> address <> "" ->
  MORALIS_API_KEY cfg = Some api_key -> api_key <> "" ->
  upstream w (wallet_tokens_call address api_key) = Completed r ->
  status_code r = 200 ->
  content r = Json (PList tokens) ->
  get_wallet_tokens cfg req w
  = (Ok {| body := PDict [("error", PStr "'list' object has no attribute 'get'")];
           status := 500 |},
     after_call w (wallet_tokens_call address api_key)).
Proof.
  intros Hargs Haddr Hkey Hapi Hup Hcode Hcontent.
  unfold get_wallet_tokens. rewrite Hargs, Hkey.
  destruct address as [|c rest]; [congruence|].
  destruct api_key as [|k key]; [congruence|].
  run. unfold wallet_tokens_call in Hup. rewrite Hup.
  rewrite (proj2 (Z.eqb_eq _ _) Hcode). cbv beta iota.
  unfold response_json. rewrite Hcontent. reflexivity.
Qed.

Example get_wallet_tokens_one_verified_one_not :
  let tokens := [PDict [("verified_contract", PBool true)];
                 PDict [("verified_contract", PBool false)]] in
  fst (get_wallet_tokens all_set (asking "address" "0x1")
         (answering {| status_code := 200; content := Json (PList tokens) |}))
  = Ok (respond [("error", PStr "'list' object has no attribute 'get'")] 500)
  /\ fst (get_wallet_tokens all_set (asking "address" "0x1")
            (answering {| status_code := 200;
                          content := Json (PDict [("result", PList tokens)]) |}))
     = Ok (respond [("tokens", PList [PDict [("verified_contract", PBool true)]]);
                    ("address", PStr "0x1");
                    ("total_tokens", PInt 1)] 200).
Proof. split; reflexivity. Qed.

(** ** GET /api/token-price *)

(** C2, amended.  For a [/api/token-price] request with a non-empty
    [token_address] and a configured CoinGecko key, when the upstream
    answers 200 with a JSON object in which the entry under the lower-cased
    address, if there is one, is itself an object, the response is 200 with
    [price] the [usd] value of that entry, or 0 when the entry or its [usd]
    value is not there, and with [token_address] as the client wrote it.
    Exactly one upstream call is sent.  The price is the same for every
    spelling of the address that has the same lower-case form. *)
Theorem get_token_price_extracts_usd
  (cfg : Config) (req : Request) (w : World) (token_address api_key : string)
  (r : UpstreamResponse) (items : list (string * pyval)) :
  request_args_get (args req) "token_address" = Some token_address ->
  token_address <> "" ->
  COINGECKO_API_KEY cfg = Some api_key -> api_key <> "" ->
  upstream w (token_price_call token_address api_key) = Completed r ->
  status_code r = 200 ->
  content r = Json (PDict items) ->
  (forall entry,
      Py.dict_lookup (Py.lower token_address) items = Some entry ->
      is_object entry = true) ->
  get_token_price cfg req w
  = (Ok {| body := PDict [("price", usd_price items token_address);
                          ("token_address", PStr token_address)];
           status := 200 |},
     after_call w (token_price_call token_address api_key))
  /\ forall spelling,
      Py.lower spelling = Py.lower token_address ->
      usd_price items spelling = usd_price items token_address.
Proof.
  intros Hargs Haddr Hkey Hapi Hup Hcode Hcontent Hentry.
  split; [|intros spelling Hsame; unfold usd_price; now rewrite Hsame].
  unfold get_token_price. rewrite Hargs, Hkey.
  destruct token_address as [|c rest]; [congruence|].
  destruct api_key as [|k key]; [congruence|].
  run. unfold token_price_call in Hup. rewrite Hup.
  rewrite (proj2 (Z.eqb_eq _ _) Hcode). cbv beta iota.
  unfold response_json. rewrite Hcontent. unfold usd_price. cbn [Py.get].
  destruct (Py.dict_lookup (Py.lower (String c rest)) items) as [entry|] eqn:Hfound.
  - specialize (Hentry entry eq_refl).
    destruct entry as [| | | | | |inner]; try discriminate.
    cbn [Py.get field].
    destruct (Py.dict_lookup "usd" inner); reflexivity.
  - reflexivity.
Qed.

Lemma get_token_price_extracts_usd_witness :
  let price := PFloat 0x1.3ae147ae147aep+0%float in
  let items := [("0xabc", PDict [("usd", price)])] in
  let r := {| status_code := 200; content := Json (PDict items) |} in
  get_token_price all_set (asking "token_address" "0xABC") (answering r)
  = (Ok {| body := PDict [("price", usd_price items "0xABC");
                          ("token_address", PStr "0xABC")];
           status := 200 |},
     after_call (answering r) (token_price_call "0xABC" "coingecko-key"))
  /\ forall spelling,
      Py.lower spelling = Py.lower "0xABC" ->
      usd_price items spelling = usd_price items "0xABC".
Proof.
  intros price items r.
  apply (get_token_price_extracts_usd
           all_set (asking "token_address" "0xABC") (answering r)
           "0xABC" "coingecko-key" r items);
    try reflexivity; try discriminate.
  intros entry [= <-]. reflexivity.
Defined.

(** The pricing upstream stores 1.23 under ["0xabc"] and the client asks
    for ["0xABC"]: the price is 1.23 and the address comes back as asked. *)
Example get_token_price_mixed_case :
  let price := PFloat 0x1.3ae147ae147aep+0%float in
  fst (get_token_price all_set (asking "token_address" "0xABC")
         (answering {| status_code := 200;
                       content := Json (PDict [("0xabc", PDict [("usd", price)])]) |}))
  = Ok (respond [("price", price); ("token_address", PStr "0xABC")] 200).
Proof. reflexivity. Qed.

(** C2 as worded fails: the upstream answers 200 with [{"0xabc": null}]
    and the handler answers 500, with no price. *)
Lemma token_price_null_entry_is_a_500 :
  ~ token_price_as_specified
      all_set (asking "token_address" "0xABC")
      (answering {| status_code := 200;
                    content := Json (PDict [("0xabc", PNone)]) |}).
Proof.
  intros H.
  destruct (H "0xABC" "coingecko-key" _
              eq_refl ltac:(discriminate) eq_refl ltac:(discriminate)
              eq_refl eq_refl) as [price Hprice].
  vm_compute in Hprice. discriminate Hprice.
Qed.

(** Only the lower-cased address is looked up: two spellings of one address
    get the same price. *)
Lemma usd_price_case_insensitive
  (items : list (string * pyval)) (a b : string) :
  Py.lower a = Py.lower b -> usd_price items a = usd_price items b.
Proof. unfold usd_price. now intros ->. Qed.

(** ** POST /api/send-telegram *)

(** A body that is falsy, or an object without a [message] key, is refused
    with 400 and nothing is sent. *)
Lemma send_telegram_requires_message
  (cfg : Config) (req : Request) (w : World) (data : pyval) :
  json_body req = Parsed data ->
  Py.truthy data = false
  \/ (exists items, data = PDict items
                    /\ Py.dict_lookup "message" items = None) ->
  send_telegram cfg req w
  = (Ok {| body := PDict [("error", PStr "message is required")];
           status := 400 |}, w).
Proof.
  unfold send_telegram, get_json, message_missing. intros ->. run.
  intros [Hfalsy | [items [-> Hnone]]].
  - now rewrite Hfalsy.
  - cbn [Py.contains]. rewrite Hnone.
    destruct (negb (Py.truthy (PDict items))); reflexivity.
Qed.

(** C3, at the failing input.  The body [{"message": ""}] carries an empty
    message, yet it passes the check: whenever both Telegram credentials are
    configured the call goes out to Telegram with an empty [text], and the
    answer is 200 or 500 as the upstream decides, never the 400 of a refused
    request. *)
Theorem send_telegram_forwards_an_empty_message
  (cfg : Config) (w : World) (bot_token chat_id : string) :
  TELEGRAM_BOT_TOKEN cfg = Some bot_token -> bot_token <> "" ->
  TELEGRAM_CHAT_ID cfg = Some chat_id -> chat_id <> "" ->
  exists resp,
    send_telegram cfg (posting (PDict [("message", PStr "")])) w
    = (Ok resp, after_call w (telegram_call bot_token chat_id (PStr "")))
    /\ (status resp = 200 \/ status resp = 500).
Proof.
  intros Htoken Hnonempty Hchat Hnonempty'.
  rewrite (send_telegram_sends
             cfg (posting (PDict [("message", PStr "")])) w
             [("message", PStr "")] (PStr "") bot_token chat_id)
    by (assumption || reflexivity).
  destruct (upstream w (telegram_call bot_token chat_id (PStr ""))) as [r|d].
  - destruct (status_code r =? 200); eexists; split;
      try reflexivity; cbn [status respond]; auto.
  - eexists; split; try reflexivity; cbn [status respond]; auto.
Qed.

Lemma send_telegram_forwards_an_empty_message_witness :
  let w := answering {| status_code := 200;
                        content := Json (PDict [("ok", PBool true)]) |} in
  exists resp,
    send_telegram all_set (posting (PDict [("message", PStr "")])) w
    = (Ok resp, after_call w (telegram_call "bot-token" "chat-id" (PStr "")))
    /\ (status resp = 200 \/ status resp = 500).
Proof.
  intros w.
  apply (send_telegram_forwards_an_empty_message all_set w "bot-token" "chat-id");
    try reflexivity; discriminate.
Defined.

Example send_telegram_empty_message_sent :
  let w := answering {| status_code := 200;
                        content := Json (PDict [("ok", PBool true)]) |} in
  send_telegram all_set (posting (PDict [("message", PStr "")])) w
  = (Ok {| body := PDict [("success", PBool true);
                          ("message", PStr "Message sent successfully")];
           status := 200 |},
     after_call w (telegram_call "bot-token" "chat-id" (PStr ""))).
Proof. reflexivity. Qed.

(** A body that is a number is no container: the membership test raises
    outside the [try], and the exception leaves the view function. *)
Example send_telegram_number_body :
  send_telegram all_set (posting (PInt 5)) offline
  = (Raise (TypeError "argument of type 'int' is not iterable"), offline).
Proof. reflexivity. Qed.

(** ** The order of the checks *)

(** X10.  Where the required parameter is missing, the answer is 400
    whatever the configuration: [token_address] or [address] absent or
    empty, and for [/api/send-telegram] a JSON body that is falsy or that
    holds no [message]. *)
Lemma parameter_check_comes_first (cfg : Config) (req : Request) (w : World) :
  (Py.present (request_args_get (args req) "token_address") = false ->
   fst (get_token_price cfg req w)
   = Ok (respond [("error", PStr "token_address parameter is required")] 400))
  /\ (Py.present (request_args_get (args req) "address") = false ->
      fst (get_wallet_tokens cfg req w)
      = Ok (respond [("error", PStr "address parameter is required")] 400))
  /\ (forall data,
         get_json req = Ok data ->
         message_missing data = Ok true ->
         fst (send_telegram cfg req w)
         = Ok (respond [("error", PStr "message is required")] 400)).
Proof.
  repeat split.
  - unfold get_token_price.
    destruct (request_args_get (args req) "token_address") as [[|c rest]|];
      cbn [Py.present]; try discriminate; reflexivity.
  - unfold get_wallet_tokens.
    destruct (request_args_get (args req) "address") as [[|c rest]|];
      cbn [Py.present]; try discriminate; reflexivity.
  - intros data Hbody Hmissing. unfold send_telegram. run.
    now rewrite Hbody, Hmissing.
Qed.

(** C9, at the failing input.  Whenever a Telegram credential is not
    configured, the body [{"message": ""}] is answered 500 for the
    configuration, although its message is empty, and nothing is sent. *)
Theorem send_telegram_empty_message_unconfigured (cfg : Config) (w : World) :
  Py.present (TELEGRAM_BOT_TOKEN cfg) && Py.present (TELEGRAM_CHAT_ID cfg) = false ->
  send_telegram cfg (posting (PDict [("message", PStr "")])) w
  = (Ok {| body := PDict [("error", PStr "Telegram credentials not configured")];
           status := 500 |}, w).
Proof.
  unfold send_telegram. run.
  destruct (TELEGRAM_BOT_TOKEN cfg) as [[|c token]|];
    destruct (TELEGRAM_CHAT_ID cfg) as [[|k chat]|];
    cbn [Py.present andb]; try discriminate; reflexivity.
Qed.

Lemma send_telegram_empty_message_unconfigured_witness :
  send_telegram none_set (posting (PDict [("message", PStr "")])) offline
  = (Ok {| body := PDict [("error", PStr "Telegram credentials not configured")];
           status := 500 |}, offline).
Proof.
  apply (send_telegram_empty_message_unconfigured none_set offline).
  reflexivity.
Defined.

(** ** GET /api/config *)

Lemma get_config_shape (cfg : Config) (req : Request) (w : World) :
  get_config cfg req w
  = (Ok {| body :=
             PDict [("usdt_address", Py.of_option (USDT_ADDRESS cfg));
                    ("spender_address", Py.of_option (SPENDER_ADDRESS cfg));
                    ("has_moralis_key", PBool (Py.present (MORALIS_API_KEY cfg)));
                    ("has_coingecko_key", PBool (Py.present (COINGECKO_API_KEY cfg)));
                    ("has_telegram_config",
                     PBool (Py.present (TELEGRAM_BOT_TOKEN cfg)
                            && Py.present (TELEGRAM_CHAT_ID cfg)))];
           status := 200 |}, w).
Proof.
  unfold get_config, py_and, ret, respond, jsonify.
  destruct (Py.present (TELEGRAM_BOT_TOKEN cfg)) eqn:Htoken;
    cbn [andb]; now rewrite ?Htoken.
Qed.

(** C6, amended.  The [/api/config] response is 200 and holds exactly five
    fields: the two address values and three booleans, which say whether
    the Moralis key holds a non-empty value, whether the CoinGecko key does,
    and whether both the Telegram token and the chat id do.  Two
    configurations that agree on the two addresses and on which credentials
    hold a non-empty value get the same response, whatever the credentials
    are. *)
Theorem get_config_reveals_only_what_is_configured
  (c1 c2 : Config) (req : Request) (w : World) :
  same_addresses c1 c2 ->
  same_credentials Py.present c1 c2 ->
  get_config c1 req w = get_config c2 req w
  /\ get_config c1 req w
     = (Ok {| body :=
                PDict [("usdt_address", Py.of_option (USDT_ADDRESS c1));
                       ("spender_address", Py.of_option (SPENDER_ADDRESS c1));
                       ("has_moralis_key",
                        PBool (Py.present (MORALIS_API_KEY c1)));
                       ("has_coingecko_key",
                        PBool (Py.present (COINGECKO_API_KEY c1)));
                       ("has_telegram_config",
                        PBool (Py.present (TELEGRAM_BOT_TOKEN c1)
                               && Py.present (TELEGRAM_CHAT_ID c1)))];
              status := 200 |}, w).
Proof.
  intros [Husdt Hspender] (Hm & Hc & Ht & Hi).
  rewrite !get_config_shape. split.
  - now rewrite Husdt, Hspender, Hm, Hc, Ht, Hi.
  - reflexivity.
Qed.

Lemma get_config_reveals_only_what_is_configured_witness :
  let other := {| MORALIS_API_KEY := Some "another-moralis-key";
                  COINGECKO_API_KEY := Some "another-coingecko-key";
                  TELEGRAM_BOT_TOKEN := Some "another-bot-token";
                  TELEGRAM_CHAT_ID := Some "another-chat-id";
                  USDT_ADDRESS := Some "0x55d3";
                  SPENDER_ADDRESS := Some "0x7a25" |} in
  get_config all_set bare offline = get_config other bare offline
  /\ get_config all_set bare offline
     = (Ok {| body :=
                PDict [("usdt_address", Py.of_option (USDT_ADDRESS all_set));
                       ("spender_address", Py.of_option (SPENDER_ADDRESS all_set));
                       ("has_moralis_key",
                        PBool (Py.present (MORALIS_API_KEY all_set)));
                       ("has_coingecko_key",
                        PBool (Py.present (COINGECKO_API_KEY all_set)));
                       ("has_telegram_config",
                        PBool (Py.present (TELEGRAM_BOT_TOKEN all_set)
                               && Py.present (TELEGRAM_CHAT_ID all_set)))];
              status := 200 |}, offline).
Proof.
  intros other.
  apply (get_config_reveals_only_what_is_configured all_set other bare offline).
  - split; reflexivity.
  - repeat split; reflexivity.
Defined.

(** C6 as worded fails: a key that is set to the empty string and a key
    that is set to a value are both set, and the responses differ. *)
Lemma config_tells_an_empty_key_from_a_key :
  ~ config_as_specified.
Proof.
  intros H.
  specialize (H {| MORALIS_API_KEY := Some "";
                   COINGECKO_API_KEY := None;
                   TELEGRAM_BOT_TOKEN := None; TELEGRAM_CHAT_ID := None;
                   USDT_ADDRESS := None; SPENDER_ADDRESS := None |}
                {| MORALIS_API_KEY := Some "key";
                   COINGECKO_API_KEY := None;
                   TELEGRAM_BOT_TOKEN := None; TELEGRAM_CHAT_ID := None;
                   USDT_ADDRESS := None; SPENDER_ADDRESS := None |}
                bare offline).
  specialize (H (conj eq_refl eq_refl)
                (conj eq_refl (conj eq_refl (conj eq_refl eq_refl)))).
  apply (f_equal fst) in H. vm_compute in H. discriminate H.
Qed.

(** ** POST /webhook *)

Section WebhookProperties.

Variable json_dumps : pyval -> string.

(** An absent or empty body is falsy, so it is refused. *)
Lemma empty_json_is_falsy (v : pyval) :
  empty_json v = true -> Py.truthy v = false.
Proof.
  destruct v as [| | | |s|l|items]; cbn; try discriminate; try reflexivity.
  - now destruct s.
  - now destruct l.
  - now destruct items.
Qed.

Lemma webhook_run (req : Request) (w : World) :
  webhook json_dumps req w
  = match get_json req with
    | Ok data =>
        if Py.truthy data
        then (Ok webhook_accepted,
              after_print w ("Webhook received: " ++ json_dumps data))
        else (Ok webhook_refused, w)
    | Raise e => (Raise e, w)
    end.
Proof.
  unfold webhook. run. destruct (get_json req) as [data|e]; [|reflexivity].
  now destruct (Py.truthy data).
Qed.


(** C10, amended.  Every accepted [/webhook] request, one whose JSON body
    is truthy and so passes the handler's test, gets the constant body
    [{"success": true, "message": "Webhook processed successfully"}] with
    status 200: two accepted payloads, in whatever worlds, get the same
    response. *)
Theorem webhook_response_is_constant
  (req1 req2 : Request) (w1 w2 : World) (data1 data2 : pyval) :
  json_body req1 = Parsed data1 ->
  json_body req2 = Parsed data2 ->
  Py.truthy data1 = true ->
  Py.truthy data2 = true ->
  fst (webhook json_dumps req1 w1) = fst (webhook json_dumps req2 w2)
  /\ fst (webhook json_dumps req1 w1)
     = Ok {| body := PDict [("success", PBool true);
                            ("message", PStr "Webhook processed successfully")];
             status := 200 |}.
Proof.
  intros Hbody1 Hbody2 H1 H2. rewrite !webhook_run. unfold get_json.
  rewrite Hbody1, Hbody2, H1, H2. split; reflexivity.
Qed.

End WebhookProperties.



Lemma webhook_response_is_constant_witness :
  let data1 := PDict [("event", PStr "approve")] in
  let data2 := PList [PInt 1; PInt 2] in
  fst (webhook type_tag (posting data1) offline)
  = fst (webhook type_tag (posting data2)
           (answering {| status_code := 200; content := Raw "" |}))
  /\ fst (webhook type_tag (posting data1) offline)
     = Ok {| body := PDict [("success", PBool true);
                            ("message", PStr "Webhook processed successfully")];
             status := 200 |}.
Proof.
  intros data1 data2.
  apply (webhook_response_is_constant
           type_tag (posting data1) (posting data2) _ _ data1 data2);
    reflexivity.
Defined.

(** C10 as worded fails: the bodies [0] and [1] are two distinct JSON
    bodies, neither of them empty, and the first is refused with 400 while
    the second is accepted. *)
Lemma webhook_tells_zero_from_one :
  ~ webhook_constant_as_specified type_tag.
Proof.
  intros H.
  specialize (H (posting (PInt 0)) (posting (PInt 1)) (PInt 0) (PInt 1)
                offline offline eq_refl eq_refl eq_refl eq_refl
                ltac:(discriminate)).
  discriminate H.
Qed.

(** * Further properties of the view functions *)

(** ** Transport failures *)

(** X1.  In each of the three forwarding view functions, when the run has
    sent its upstream call and the call failed in transport, the exception
    is caught: the response has status 500 and its body is exactly
    [{"error": <the description of the failure>}]. *)
Theorem transport_failure_is_reported_with_its_description
  (view : Config -> Request -> M HttpResponse) (cfg : Config) (req : Request)
  (w w' : World) (out : result HttpResponse)
  (rq : UpstreamRequest) (description : string) :
  In view forwarding_views ->
  view cfg req w = (out, w') ->
  calls_made w w' [rq] ->
  upstream w rq = Failed description ->
  out = Ok {| body := PDict [("error", PStr description)]; status := 500 |}.
Proof.
  intros Hview. unfold calls_made.
  destruct Hview as [<-|[<-|[<-|[]]]].
  - unfold get_token_price.
    destruct (request_args_get (args req) "token_address") as [[|c rest]|];
      try no_call.
    destruct (COINGECKO_API_KEY cfg) as [[|k key]|]; try no_call.
    run.
    match goal with |- context [upstream w ?c] => set (call := c) end.
    destruct (upstream w call) as [r0|d] eqn:Hup;
      [paths; same_call Hup | same_call Hup; reflexivity].
  - unfold get_wallet_tokens.
    destruct (request_args_get (args req) "address") as [[|c rest]|];
      try no_call.
    destruct (MORALIS_API_KEY cfg) as [[|k key]|]; try no_call.
    run.
    match goal with |- context [upstream w ?c] => set (call := c) end.
    destruct (upstream w call) as [r0|d] eqn:Hup;
      [paths; same_call Hup | same_call Hup; reflexivity].
  - unfold send_telegram. run.
    destruct (get_json req) as [data|e]; try no_call.
    destruct (message_missing data) as [[|]|e]; try no_call.
    destruct (TELEGRAM_BOT_TOKEN cfg) as [[|c token]|]; try no_call;
      destruct (TELEGRAM_CHAT_ID cfg) as [[|k chat]|]; try no_call.
    destruct (Py.getitem data "message") as [text|e]; try no_call.
    match goal with
    | |- context [json_compliant ?j] => destruct (json_compliant j)
    end; cbv beta iota; try no_call.
    match goal with |- context [upstream w ?c] => set (call := c) end.
    destruct (upstream w call) as [r0|d] eqn:Hup;
      [paths; same_call Hup | same_call Hup; reflexivity].
Qed.

Lemma transport_failure_is_reported_with_its_description_witness :
  fst (get_wallet_tokens all_set (asking "address" "0x1") offline)
  = Ok {| body := PDict [("error", PStr "connection refused")]; status := 500 |}.
Proof.
  apply (transport_failure_is_reported_with_its_description
           get_wallet_tokens all_set (asking "address" "0x1") offline
           (snd (get_wallet_tokens all_set (asking "address" "0x1") offline))
           _ (wallet_tokens_call "0x1" "moralis-key") "connection refused").
  - simpl. auto.
  - apply surjective_pairing.
  - reflexivity.
  - reflexivity.
Defined.

(** ** What escapes a view function *)

(** X2.  [get_token_price] and [get_wallet_tokens] never raise: whatever the
    request, the configuration and the upstream's behaviour, a run ends in
    a response. *)
Theorem price_and_wallet_views_never_raise
  (cfg : Config) (req : Request) (w : World) :
  (exists resp, fst (get_token_price cfg req w) = Ok resp)
  /\ (exists resp, fst (get_wallet_tokens cfg req w) = Ok resp).
Proof.
  split.
  - unfold get_token_price.
    destruct (request_args_get (args req) "token_address") as [[|c rest]|];
      try (eexists; reflexivity).
    destruct (COINGECKO_API_KEY cfg) as [[|k key]|];
      try (eexists; reflexivity).
    run.
    match goal with |- context [upstream w ?c] => destruct (upstream w c) end;
      paths; eexists; reflexivity.
  - unfold get_wallet_tokens.
    destruct (request_args_get (args req) "address") as [[|c rest]|];
      try (eexists; reflexivity).
    destruct (MORALIS_API_KEY cfg) as [[|k key]|];
      try (eexists; reflexivity).
    run.
    match goal with |- context [upstream w ?c] => destruct (upstream w c) end;
      paths; eexists; reflexivity.
Qed.

Lemma message_missing_raises (data : pyval) :
  (exists e, message_missing data = Raise e) <-> truthy_scalar data = true.
Proof.
  unfold message_missing, truthy_scalar.
  destruct data as [|b|z|f|s|l|items]; cbn [Py.truthy Py.contains negb].
  - split; [intros [e H]; discriminate | discriminate].
  - destruct b; cbn [negb]; split; try discriminate; eauto.
    intros [e H]; discriminate.
  - destruct (negb (z =? 0)); cbn [negb]; split; try discriminate; eauto.
    intros [e H]; discriminate.
  - destruct (negb (PrimFloat.eqb f 0)); cbn [negb]; split;
      try discriminate; eauto.
    intros [e H]; discriminate.
  - split; [intros [e H] | discriminate].
    destruct s; cbn [negb] in H; discriminate.
  - split; [intros [e H] | discriminate].
    destruct l; cbn [negb] in H; discriminate.
  - split; [intros [e H] | discriminate].
    destruct items; cbn [negb] in H; discriminate.
Qed.

(** X3.  [send_telegram] lets an exception escape exactly in two cases:
    when [request.get_json()] raises, because the request does not declare
    JSON content or its body does not parse, and when the JSON body is
    [true] or a number other than zero, on which the membership test
    ['message' not in data], which stands outside the [try], raises a
    [TypeError].  Nothing has been sent by then. *)
Theorem send_telegram_raises_exactly_when
  (cfg : Config) (req : Request) (w : World) :
  ((exists e, fst (send_telegram cfg req w) = Raise e)
   <-> (exists e, get_json req = Raise e)
       \/ (exists data, get_json req = Ok data /\ truthy_scalar data = true))
  /\ (forall e, get_json req = Raise e -> send_telegram cfg req w = (Raise e, w))
  /\ (forall data,
         get_json req = Ok data ->
         truthy_scalar data = true ->
         send_telegram cfg req w
         = (Raise (TypeError ("argument of type '"
                              ++ Py.type_name data
                              ++ "' is not iterable")), w)).
Proof.
  split; [|split].
  - unfold send_telegram. run.
    destruct (get_json req) as [data|e0].
    + assert (Hscalar : forall b,
                 message_missing data = Ok b ->
                 ~ ((exists e, Ok data = @Raise pyval e)
                    \/ (exists data', Ok data = Ok data'
                                      /\ truthy_scalar data' = true))).
      { intros b Hb [[e H]|[data' [[= <-] Hs]]]; [discriminate|].
        apply message_missing_raises in Hs. destruct Hs as [e He].
        rewrite Hb in He. discriminate. }
      destruct (message_missing data) as [[|]|e1] eqn:Hmissing.
      * split; [intros [e H]; discriminate|].
        intros H. now apply (Hscalar true eq_refl) in H.
      * split; [|intros H; now apply (Hscalar false eq_refl) in H].
        destruct (TELEGRAM_BOT_TOKEN cfg) as [[|c token]|];
          try (intros [e H]; discriminate);
          destruct (TELEGRAM_CHAT_ID cfg) as [[|k chat]|];
          try (intros [e H]; discriminate).
        destruct (Py.getitem data "message") as [text|e1];
          try (intros [e H]; discriminate).
        match goal with
        | |- context [json_compliant ?j] => destruct (json_compliant j)
        end; cbv beta iota; try (intros [e H]; discriminate).
        match goal with |- context [upstream w ?c] => destruct (upstream w c) end;
          paths; intros [e H]; discriminate.
      * cbn [fst]. split; [intros _; right; exists data; split; [reflexivity|]
                          | eauto].
        apply message_missing_raises. eauto.
    + cbn [fst]. split; eauto.
  - intros e He. unfold send_telegram. run. now rewrite He.
  - intros data Hbody. unfold send_telegram, message_missing, truthy_scalar. run.
    rewrite Hbody.
    destruct data as [|b|z|f|s|l|items]; try discriminate;
      intros ->; reflexivity.
Qed.

Lemma send_telegram_raises_exactly_when_witness :
  send_telegram all_set (posting (PInt 5)) offline
  = (Raise (TypeError ("argument of type '"
                       ++ Py.type_name (PInt 5)
                       ++ "' is not iterable")), offline).
Proof.
  apply (proj2 (proj2 (send_telegram_raises_exactly_when
                         all_set (posting (PInt 5)) offline))
           (PInt 5));
    reflexivity.
Defined.

Lemma forwarding_views_call_at_most_once_witness :
  snd (send_telegram all_set (posting (PDict [("message", PStr "hi")])) offline)
  = offline
  \/ exists rq,
      snd (send_telegram all_set (posting (PDict [("message", PStr "hi")])) offline)
      = after_call offline rq.
Proof.
  apply (forwarding_views_call_at_most_once send_telegram).
  simpl. auto.
Defined.

(** ** The envelope *)

Ltac envelope :=
  let H := fresh "H" in
  intros H; injection H as <-; unfold envelope_ok; cbn;
  first [ left; split; reflexivity
        | right; split; [auto | eexists; reflexivity] ].

(** X4.  Every response a view function returns is a well-formed envelope:
    status 200 with no [error] field, or status 400 or 500 with an [error]
    field that holds a string.  No other status is ever produced. *)
Theorem every_response_is_an_envelope
  (json_dumps : pyval -> string) (cfg : Config) (req : Request) (w : World) :
  (forall view resp,
      In view forwarding_views ->
      fst (view cfg req w) = Ok resp -> envelope_ok resp)
  /\ (forall resp, fst (webhook json_dumps req w) = Ok resp -> envelope_ok resp)
  /\ (forall resp, fst (get_config cfg req w) = Ok resp -> envelope_ok resp)
  /\ (forall resp, fst (health_check req w) = Ok resp -> envelope_ok resp).
Proof.
  repeat split.
  - intros view resp [<-|[<-|[<-|[]]]].
    + unfold get_token_price.
      destruct (request_args_get (args req) "token_address") as [[|c rest]|];
        try envelope.
      destruct (COINGECKO_API_KEY cfg) as [[|k key]|]; try envelope.
      run.
      match goal with |- context [upstream w ?c] => destruct (upstream w c) end;
        paths; envelope.
    + unfold get_wallet_tokens.
      destruct (request_args_get (args req) "address") as [[|c rest]|];
        try envelope.
      destruct (MORALIS_API_KEY cfg) as [[|k key]|]; try envelope.
      run.
      match goal with |- context [upstream w ?c] => destruct (upstream w c) end;
        paths; envelope.
    + unfold send_telegram. run.
      destruct (get_json req) as [data|e]; try discriminate.
      destruct (message_missing data) as [[|]|e];
        try envelope; try discriminate.
      destruct (TELEGRAM_BOT_TOKEN cfg) as [[|c token]|]; try envelope;
        destruct (TELEGRAM_CHAT_ID cfg) as [[|k chat]|]; try envelope.
      destruct (Py.getitem data "message") as [text|e]; try envelope.
      match goal with
      | |- context [json_compliant ?j] => destruct (json_compliant j)
      end; cbv beta iota; try envelope.
      match goal with |- context [upstream w ?c] => destruct (upstream w c) end;
        paths; envelope.
  - intros resp. rewrite webhook_run.
    destruct (get_json req) as [data|e]; try discriminate.
    destruct (Py.truthy data); envelope.
  - intros resp. unfold get_config, ret. envelope.
  - intros resp. unfold health_check. run. envelope.
Qed.

Lemma every_response_is_an_envelope_witness :
  let resp := respond [("error", PStr "CoinGecko API key not configured")] 500 in
  fst (get_token_price none_set (asking "token_address" "0xABC") offline) = Ok resp
  /\ envelope_ok resp.
Proof.
  intros resp. split; [reflexivity|].
  apply (proj1 (every_response_is_an_envelope
                  type_tag none_set (asking "token_address" "0xABC") offline)
               get_token_price resp).
  - simpl. auto.
  - reflexivity.
Defined.

(** ** GET /api/wallet-tokens: the payload *)

(** X6.  When the upstream answers a valid [/api/wallet-tokens] request
    with 200 and a JSON payload that is not an object (a list, a string, a
    number, a boolean or [null]), [data.get] raises and the response is 500
    with the message of the [AttributeError]; no token list is returned.  A
    payload that is the list of tokens itself is such a payload. *)
Theorem get_wallet_tokens_payload_must_be_an_object
  (cfg : Config) (req : Request) (w : World) (address api_key : string)
  (r : UpstreamResponse) (data : pyval) :
  request_args_get (args req) "address" = Some address -> address <> "" ->
  MORALIS_API_KEY cfg = Some api_key -> api_key <> "" ->
  upstream w (wallet_tokens_call address api_key) = Completed r ->
  status_code r = 200 ->
  content r = Json data ->
  is_object data = false ->
  get_wallet_tokens cfg req w
  = (Ok {| body := PDict [("error",
                           PStr ("'" ++ Py.type_name data
                                 ++ "' object has no attribute 'get'"))];
           status := 500 |},
     after_call w (wallet_tokens_call address api_key)).
Proof.
  intros Hargs Haddr Hkey Hapi Hup Hcode Hcontent Hshape.
  unfold get_wallet_tokens. rewrite Hargs, Hkey.
  destruct address as [|c rest]; [congruence|].
  destruct api_key as [|k key]; [congruence|].
  run. unfold wallet_tokens_call in Hup. rewrite Hup.
  rewrite (proj2 (Z.eqb_eq _ _) Hcode). cbv beta iota.
  unfold response_json. rewrite Hcontent.
  destruct data; try discriminate; reflexivity.
Qed.

Lemma get_wallet_tokens_payload_must_be_an_object_witness :
  let tokens := PList [PDict [("verified_contract", PBool true)];
                       PDict [("verified_contract", PBool false)]] in
  let r := {| status_code := 200; content := Json tokens |} in
  get_wallet_tokens all_set (asking "address" "0x1") (answering r)
  = (Ok {| body := PDict [("error",
                           PStr ("'" ++ Py.type_name tokens
                                 ++ "' object has no attribute 'get'"))];
           status := 500 |},
     after_call (answering r) (wallet_tokens_call "0x1" "moralis-key")).
Proof.
  intros tokens r.
  apply (get_wallet_tokens_payload_must_be_an_object
           all_set (asking "address" "0x1") (answering r) "0x1" "moralis-key"
           r tokens);
    try reflexivity; discriminate.
Defined.

Lemma verified_only_sound (tokens : list pyval) :
  forall kept, verified_only tokens = Ok kept -> forallb verified kept = true.
Proof.
  induction tokens as [|token rest IH]; cbn [verified_only]; intros kept.
  - intros [= <-]. reflexivity.
  - destruct token as [| | | | | |inner]; cbn [Py.get]; try discriminate.
    destruct (verified_only rest) as [kept'|e]; try discriminate.
    intros [= <-]. specialize (IH kept' eq_refl).
    destruct (Py.dict_lookup "verified_contract" inner) as [v|] eqn:Hv.
    + destruct (Py.eq_True v) eqn:Heq; [|exact IH].
      cbn [forallb]. rewrite IH. unfold verified. cbn [field].
      now rewrite Hv, Heq.
    + exact IH.
Qed.

(** X7.  Whatever the upstream sends, a 200 response of
    [/api/wallet-tokens] has the body [{tokens, address, total_tokens}]
    where [address] is the queried address, [total_tokens] is the length of
    [tokens], and every element of [tokens] is an object whose
    [verified_contract] compares equal to [True]. *)
Theorem get_wallet_tokens_returns_only_verified
  (cfg : Config) (req : Request) (w : World) (resp : HttpResponse) :
  fst (get_wallet_tokens cfg req w) = Ok resp ->
  status resp = 200 ->
  exists address kept,
    request_args_get (args req) "address" = Some address
    /\ body resp = PDict [("tokens", PList kept);
                          ("address", PStr address);
                          ("total_tokens", PInt (Z.of_nat (length kept)))]
    /\ forallb verified kept = true.
Proof.
  unfold get_wallet_tokens.
  destruct (request_args_get (args req) "address") as [[|c rest]|];
    try (intros [= <-]; discriminate).
  destruct (MORALIS_API_KEY cfg) as [[|k key]|];
    try (intros [= <-]; discriminate).
  run.
  match goal with |- context [upstream w ?c] => destruct (upstream w c) as [r|d] end;
    [|intros [= <-]; discriminate].
  destruct (status_code r =? 200); cbv beta iota;
    [|intros [= <-]; discriminate].
  destruct (response_json r) as [data|e]; [|intros [= <-]; discriminate].
  destruct (Py.get data "result" data) as [tokens|e];
    [|intros [= <-]; discriminate].
  destruct (Py.iter tokens) as [elements|e]; [|intros [= <-]; discriminate].
  destruct (verified_only elements) as [kept|e] eqn:Hkept;
    [|intros [= <-]; discriminate].
  intros [= <-] _. exists (String c rest), kept.
  repeat split. apply (verified_only_sound _ _ Hkept).
Qed.

Lemma get_wallet_tokens_returns_only_verified_witness :
  let cake := PDict [("symbol", PStr "CAKE"); ("verified_contract", PInt 1)] in
  let w := answering
             {| status_code := 200;
                content := Json (PDict [("result",
                                         PList [cake; PDict [("symbol", PStr "SCAM")]])]) |} in
  let resp := respond [("tokens", PList [cake]);
                       ("address", PStr "0x1");
                       ("total_tokens", PInt 1)] 200 in
  fst (get_wallet_tokens all_set (asking "address" "0x1") w) = Ok resp
  /\ exists address kept,
      request_args_get (args (asking "address" "0x1")) "address" = Some address
      /\ body resp = PDict [("tokens", PList kept);
                            ("address", PStr address);
                            ("total_tokens", PInt (Z.of_nat (length kept)))]
      /\ forallb verified kept = true.
Proof.
  intros cake w resp. split; [reflexivity|].
  apply (get_wallet_tokens_returns_only_verified
           all_set (asking "address" "0x1") w resp);
    reflexivity.
Defined.

(** X8.  When the upstream answers a valid [/api/wallet-tokens] request
    with 200 and an object that has no [result] key, the object itself is
    taken for the token list and its keys are visited: an empty object
    gives a 200 response with no tokens, any other object a 500, since a
    key is a string and has no [get]. *)
Theorem get_wallet_tokens_object_without_result
  (cfg : Config) (req : Request) (w : World) (address api_key : string)
  (r : UpstreamResponse) (items : list (string * pyval)) :
  request_args_get (args req) "address" = Some address -> address <> "" ->
  MORALIS_API_KEY cfg = Some api_key -> api_key <> "" ->
  upstream w (wallet_tokens_call address api_key) = Completed r ->
  status_code r = 200 ->
  content r = Json (PDict items) ->
  Py.dict_lookup "result" items = None ->
  fst (get_wallet_tokens cfg req w)
  = match items with
    | [] => Ok {| body := PDict [("tokens", PList []);
                                 ("address", PStr address);
                                 ("total_tokens", PInt 0)];
                  status := 200 |}
    | _ :: _ =>
        Ok {| body := PDict [("error",
                              PStr "'str' object has no attribute 'get'")];
              status := 500 |}
    end.
Proof.
  intros Hargs Haddr Hkey Hapi Hup Hcode Hcontent Hresult.
  unfold get_wallet_tokens. rewrite Hargs, Hkey.
  destruct address as [|c rest]; [congruence|].
  destruct api_key as [|k key]; [congruence|].
  run. unfold wallet_tokens_call in Hup. rewrite Hup.
  rewrite (proj2 (Z.eqb_eq _ _) Hcode). cbv beta iota.
  unfold response_json. rewrite Hcontent. cbn [Py.get]. rewrite Hresult.
  destruct items as [|[key0 v] more]; reflexivity.
Qed.

Lemma get_wallet_tokens_object_without_result_witness :
  let r := {| status_code := 200;
              content := Json (PDict [("cursor", PNone); ("page", PInt 0)]) |} in
  fst (get_wallet_tokens all_set (asking "address" "0x1") (answering r))
  = Ok {| body := PDict [("error", PStr "'str' object has no attribute 'get'")];
          status := 500 |}.
Proof.
  intros r.
  apply (get_wallet_tokens_object_without_result
           all_set (asking "address" "0x1") (answering r) "0x1" "moralis-key"
           r [("cursor", PNone); ("page", PInt 0)]);
    try reflexivity; discriminate.
Defined.

Lemma parameter_check_comes_first_witness :
  fst (get_token_price none_set bare offline)
  = Ok (respond [("error", PStr "token_address parameter is required")] 400)
  /\ fst (get_wallet_tokens none_set (asking "address" "") offline)
     = Ok (respond [("error", PStr "address parameter is required")] 400)
  /\ fst (send_telegram none_set (posting (PDict [("text", PStr "hi")])) offline)
     = Ok (respond [("error", PStr "message is required")] 400).
Proof.
  split; [|split].
  - apply (proj1 (parameter_check_comes_first none_set bare offline)).
    reflexivity.
  - apply (proj1 (proj2 (parameter_check_comes_first
                           none_set (asking "address" "") offline))).
    reflexivity.
  - apply (proj2 (proj2 (parameter_check_comes_first
                           none_set (posting (PDict [("text", PStr "hi")]))
                           offline))
             (PDict [("text", PStr "hi")]));
      reflexivity.
Defined.

(** ** Missing credentials *)

(** X9.  [/api/wallet-tokens] and [/api/send-telegram] fail fast on a
    missing credential, as [/api/token-price] does: a request that passes
    the parameter check while the Moralis key, or one of the two Telegram
    credentials, is unset or empty is answered 500 with an [error] field,
    and the world is left as it was, so nothing is sent. *)
Theorem wallet_and_telegram_fail_fast (cfg : Config) (req : Request) (w : World) :
  (Py.present (request_args_get (args req) "address") = true ->
   Py.present (MORALIS_API_KEY cfg) = false ->
   get_wallet_tokens cfg req w
   = (Ok {| body := PDict [("error", PStr "Moralis API key not configured")];
            status := 500 |}, w))
  /\ (forall data,
         get_json req = Ok data ->
         message_missing data = Ok false ->
         Py.present (TELEGRAM_BOT_TOKEN cfg) && Py.present (TELEGRAM_CHAT_ID cfg) = false ->
         send_telegram cfg req w
         = (Ok {| body := PDict [("error", PStr "Telegram credentials not configured")];
                  status := 500 |}, w)).
Proof.
  split.
  - unfold get_wallet_tokens.
    destruct (request_args_get (args req) "address") as [[|c rest]|];
      cbn [Py.present]; try discriminate.
    destruct (MORALIS_API_KEY cfg) as [[|k key]|];
      cbn [Py.present]; try discriminate; reflexivity.
  - intros data Hbody. unfold send_telegram. run. rewrite Hbody. intros ->.
    destruct (TELEGRAM_BOT_TOKEN cfg) as [[|c token]|];
      destruct (TELEGRAM_CHAT_ID cfg) as [[|k chat]|];
      cbn [Py.present andb]; try discriminate; reflexivity.
Qed.

Lemma wallet_and_telegram_fail_fast_witness :
  get_wallet_tokens none_set (asking "address" "0x1") offline
  = (Ok {| body := PDict [("error", PStr "Moralis API key not configured")];
           status := 500 |}, offline)
  /\ send_telegram none_set (posting (PDict [("message", PStr "hi")])) offline
     = (Ok {| body := PDict [("error", PStr "Telegram credentials not configured")];
              status := 500 |}, offline).
Proof.
  split.
  - apply (proj1 (wallet_and_telegram_fail_fast
                    none_set (asking "address" "0x1") offline));
      reflexivity.
  - apply (proj2 (wallet_and_telegram_fail_fast
                    none_set (posting (PDict [("message", PStr "hi")])) offline)
             (PDict [("message", PStr "hi")]));
      reflexivity.
Defined.

(** ** GET /api/token-price: the other payloads *)

(** X11.  When the upstream answers a valid [/api/token-price] request
    with 200 and a payload from which no price can be read (a body that is
    not JSON, JSON that is not an object, or an object whose entry under the
    lower-cased address is not an object), the response is 500 with an
    [error] field, and no price is returned. *)
Theorem get_token_price_rejects_other_payloads
  (cfg : Config) (req : Request) (w : World) (token_address api_key : string)
  (r : UpstreamResponse) :
  request_args_get (args req) "token_address" = Some token_address ->
  token_address <> "" ->
  COINGECKO_API_KEY cfg = Some api_key -> api_key <> "" ->
  upstream w (token_price_call token_address api_key) = Completed r ->
  status_code r = 200 ->
  price_payload_ok token_address (content r) = false ->
  exists message,
    get_token_price cfg req w
    = (Ok {| body := PDict [("error", PStr message)]; status := 500 |},
       after_call w (token_price_call token_address api_key)).
Proof.
  intros Hargs Haddr Hkey Hapi Hup Hcode Hshape.
  unfold get_token_price. rewrite Hargs, Hkey.
  destruct token_address as [|c rest]; [congruence|].
  destruct api_key as [|k key]; [congruence|].
  run. unfold token_price_call in Hup. rewrite Hup.
  rewrite (proj2 (Z.eqb_eq _ _) Hcode). cbv beta iota.
  unfold response_json, price_payload_ok in *.
  destruct (content r) as [data|bytes]; [|eexists; reflexivity].
  destruct data as [| | | | | |items]; try (eexists; reflexivity).
  cbn [Py.get].
  destruct (Py.dict_lookup (Py.lower (String c rest)) items) as [entry|];
    [|discriminate].
  destruct entry; try discriminate; eexists; reflexivity.
Qed.

Lemma get_token_price_rejects_other_payloads_witness :
  let r := {| status_code := 200; content := Raw "<html>maintenance</html>" |} in
  exists message,
    get_token_price all_set (asking "token_address" "0xABC") (answering r)
    = (Ok {| body := PDict [("error", PStr message)]; status := 500 |},
       after_call (answering r) (token_price_call "0xABC" "coingecko-key")).
Proof.
  intros r.
  apply (get_token_price_rejects_other_payloads
           all_set (asking "token_address" "0xABC") (answering r)
           "0xABC" "coingecko-key" r);
    try reflexivity; discriminate.
Defined.

(** ** GET /api/config and the checks of the other view functions *)

Lemma after_call_is_not_the_world (w : World) (rq : UpstreamRequest) :
  after_call w rq <> w.
Proof.
  intros H. apply (f_equal sent) in H. cbn [after_call sent] in H.
  symmetry in H. now apply no_call_is_not_a_call in H.
Qed.

(** X12.  The flags of [/api/config] tell what the other view functions
    will do: for a request that passes the parameter check,
    [has_coingecko_key], [has_moralis_key] or [has_telegram_config] is false
    exactly when [/api/token-price], [/api/wallet-tokens] or
    [/api/send-telegram] answers with its configuration error and sends
    nothing. *)
Theorem config_flags_agree_with_the_checks
  (cfg : Config) (req req0 : Request) (w w0 : World) (flags : HttpResponse) :
  fst (get_config cfg req0 w0) = Ok flags ->
  (Py.present (request_args_get (args req) "token_address") = true ->
   (field "has_coingecko_key" (body flags) = Some (PBool false)
    <-> get_token_price cfg req w
        = (Ok (respond [("error", PStr "CoinGecko API key not configured")] 500), w)))
  /\ (Py.present (request_args_get (args req) "address") = true ->
      (field "has_moralis_key" (body flags) = Some (PBool false)
       <-> get_wallet_tokens cfg req w
           = (Ok (respond [("error", PStr "Moralis API key not configured")] 500), w)))
  /\ (forall data,
         get_json req = Ok data ->
         message_missing data = Ok false ->
         (field "has_telegram_config" (body flags) = Some (PBool false)
          <-> send_telegram cfg req w
              = (Ok (respond [("error", PStr "Telegram credentials not configured")] 500), w))).
Proof.
  rewrite get_config_shape. intros [= <-]. cbn [body field Py.dict_lookup].
  split; [|split]; [intros Hparam; split | intros Hparam; split
                   | intros data Hbody Hmissing; split].
  - unfold get_token_price.
    destruct (request_args_get (args req) "token_address") as [[|c rest]|];
      try discriminate.
    destruct (COINGECKO_API_KEY cfg) as [[|k key]|]; cbn; try discriminate;
      reflexivity.
  - unfold get_token_price.
    destruct (request_args_get (args req) "token_address") as [[|c rest]|];
      try discriminate.
    destruct (COINGECKO_API_KEY cfg) as [[|k key]|]; cbn [Py.present];
      try reflexivity.
    run.
    match goal with |- context [upstream w ?c] => destruct (upstream w c) end;
      paths; intros [= _ Hw]; now apply after_call_is_not_the_world in Hw.
  - unfold get_wallet_tokens.
    destruct (request_args_get (args req) "address") as [[|c rest]|];
      try discriminate.
    destruct (MORALIS_API_KEY cfg) as [[|k key]|]; cbn; try discriminate;
      reflexivity.
  - unfold get_wallet_tokens.
    destruct (request_args_get (args req) "address") as [[|c rest]|];
      try discriminate.
    destruct (MORALIS_API_KEY cfg) as [[|k key]|]; cbn [Py.present];
      try reflexivity.
    run.
    match goal with |- context [upstream w ?c] => destruct (upstream w c) end;
      paths; intros [= _ Hw]; now apply after_call_is_not_the_world in Hw.
  - unfold send_telegram. run. rewrite Hbody, Hmissing.
    destruct (TELEGRAM_BOT_TOKEN cfg) as [[|c token]|];
      destruct (TELEGRAM_CHAT_ID cfg) as [[|k chat]|];
      cbn; try discriminate; reflexivity.
  - unfold send_telegram. run. rewrite Hbody, Hmissing.
    destruct (TELEGRAM_BOT_TOKEN cfg) as [[|c token]|];
      destruct (TELEGRAM_CHAT_ID cfg) as [[|k chat]|];
      cbn [Py.present andb]; try reflexivity.
    clear Hbody Hmissing.
    destruct data as [| | | |s|l|items]; cbn [Py.getitem];
      try (cbv beta iota; discriminate).
    destruct (Py.dict_lookup "message" items) as [text|];
      [|cbv beta iota; discriminate].
    match goal with
    | |- context [json_compliant ?j] => destruct (json_compliant j)
    end; cbv beta iota; [|discriminate].
    match goal with |- context [upstream w ?c] => destruct (upstream w c) end;
      paths; intros [= _ Hw]; now apply after_call_is_not_the_world in Hw.
Qed.

Lemma config_flags_agree_with_the_checks_witness :
  let req := asking "token_address" "0xABC" in
  let flags := respond [("usdt_address", PNone); ("spender_address", PNone);
                        ("has_moralis_key", PBool false);
                        ("has_coingecko_key", PBool false);
                        ("has_telegram_config", PBool false)] 200 in
  fst (get_config none_set bare offline) = Ok flags
  /\ (field "has_coingecko_key" (body flags) = Some (PBool false)
      <-> get_token_price none_set req offline
          = (Ok (respond [("error", PStr "CoinGecko API key not configured")] 500),
             offline)).
Proof.
  intros req flags. split; [reflexivity|].
  apply (proj1 (config_flags_agree_with_the_checks
                  none_set req bare offline offline flags eq_refl)).
  reflexivity.
Defined.

(** ** POST /api/send-telegram: what is sent *)

(** X13.  When the body of a [/api/send-telegram] request is an object
    with a [message] and both credentials are configured, the message is
    passed on as it was received, whatever JSON value it is.  If it can be
    serialised, exactly one call goes out: a POST to the [sendMessage] URL
    of the bot, whose JSON carries the chat id, [parse_mode] "HTML" and the
    message as [text]; if the upstream answers 200 the response is the
    success envelope, whatever the upstream's body.  If the message holds a
    NaN or an infinite number, [requests.post] raises before anything is
    sent and the response is 500 with an [error] field. *)
Theorem send_telegram_forwards_the_message_as_received
  (cfg : Config) (req : Request) (w : World)
  (items : list (string * pyval)) (text : pyval) (bot_token chat_id : string) :
  json_body req = Parsed (PDict items) ->
  Py.dict_lookup "message" items = Some text ->
  TELEGRAM_BOT_TOKEN cfg = Some bot_token -> bot_token <> "" ->
  TELEGRAM_CHAT_ID cfg = Some chat_id -> chat_id <> "" ->
  (json_compliant text = true ->
   snd (send_telegram cfg req w)
   = after_call w (telegram_call bot_token chat_id text)
   /\ forall r,
       upstream w (telegram_call bot_token chat_id text) = Completed r ->
       status_code r = 200 ->
       fst (send_telegram cfg req w)
       = Ok {| body := PDict [("success", PBool true);
                              ("message", PStr "Message sent successfully")];
               status := 200 |})
  /\ (json_compliant text = false ->
      exists message,
        send_telegram cfg req w
        = (Ok {| body := PDict [("error", PStr message)]; status := 500 |}, w)).
Proof.
  intros Hbody Hmessage Htoken Hnonempty Hchat Hnonempty'. split.
  - intros Hcompliant.
    rewrite (send_telegram_sends cfg req w items text bot_token chat_id)
      by assumption.
    split; [reflexivity|].
    intros r -> Hcode. cbn [fst].
    now rewrite (proj2 (Z.eqb_eq _ _) Hcode).
  - intros Hbad.
    unfold send_telegram, get_json, message_missing. rewrite Hbody, Htoken, Hchat.
    destruct bot_token as [|c token]; [congruence|].
    destruct chat_id as [|k chat]; [congruence|].
    assert (Htruthy : Py.truthy (PDict items) = true)
      by (destruct items; [discriminate Hmessage | reflexivity]).
    run. rewrite Htruthy. cbn [negb Py.contains Py.getitem]. rewrite Hmessage.
    cbn [negb json_compliant forallb]. rewrite Hbad. cbn [andb].
    eexists. reflexivity.
Qed.

Lemma send_telegram_forwards_the_message_as_received_witness :
  let good := posting (PDict [("message", PStr "<b>approved</b>")]) in
  let bad := posting (PDict [("message", PFloat PrimFloat.infinity)]) in
  let w := answering {| status_code := 200; content := Raw "" |} in
  (snd (send_telegram all_set good w)
   = after_call w (telegram_call "bot-token" "chat-id" (PStr "<b>approved</b>"))
   /\ forall r,
       upstream w (telegram_call "bot-token" "chat-id" (PStr "<b>approved</b>"))
       = Completed r ->
       status_code r = 200 ->
       fst (send_telegram all_set good w)
       = Ok {| body := PDict [("success", PBool true);
                              ("message", PStr "Message sent successfully")];
               status := 200 |})
  /\ exists message,
      send_telegram all_set bad w
      = (Ok {| body := PDict [("error", PStr message)]; status := 500 |}, w).
Proof.
  intros good bad w. split.
  - apply (proj1 (send_telegram_forwards_the_message_as_received
                    all_set good w [("message", PStr "<b>approved</b>")]
                    (PStr "<b>approved</b>") "bot-token" "chat-id"
                    eq_refl eq_refl eq_refl ltac:(discriminate)
                    eq_refl ltac:(discriminate))).
    reflexivity.
  - apply (proj2 (send_telegram_forwards_the_message_as_received
                    all_set bad w [("message", PFloat PrimFloat.infinity)]
                    (PFloat PrimFloat.infinity) "bot-token" "chat-id"
                    eq_refl eq_refl eq_refl ltac:(discriminate)
                    eq_refl ltac:(discriminate))).
    reflexivity.
Defined.

(** * The start of the server *)

Lemma missing_vars_filter (environ : Environ) :
  missing_vars environ
  = filter (fun var => negb (Py.present (environ var))) required_vars.
Proof.
  unfold missing_vars, required_vars. cbn [fold_left filter].
  destruct (negb (Py.present (environ "MORALIS_API_KEY")));
    destruct (negb (Py.present (environ "COINGECKO_API_KEY")));
    destruct (negb (Py.present (environ "USDT_ADDRESS")));
    destruct (negb (Py.present (environ "SPENDER_ADDRESS")));
    reflexivity.
Qed.

Lemma stdout_after_prints (lines : list string) (line : string -> string) :
  forall w,
    stdout (fold_left (fun w' var => after_print w' (line var)) lines w)
    = (stdout w ++ map line lines)%list
    /\ sent (fold_left (fun w' var => after_print w' (line var)) lines w) = sent w.
Proof.
  induction lines as [|var rest IH]; intros w; cbn [fold_left map].
  - now rewrite app_nil_r.
  - destruct (IH (after_print w (line var))) as [Hout Hsent].
    rewrite Hout, Hsent. cbn [after_print stdout sent].
    now rewrite <- app_assoc.
Qed.

(** X14.  The script reports exactly the required variables that are unset
    or empty, in the order MORALIS_API_KEY, COINGECKO_API_KEY, USDT_ADDRESS,
    SPENDER_ADDRESS: when there is none it prints no warning, otherwise a
    heading, one line per such variable and a closing line.  The line that
    announces the port follows only if the server starts.  Nothing is sent
    upstream. *)
Theorem main_reports_the_missing_variables (environ : Environ) (w : World) :
  let missing := filter (fun var => negb (Py.present (environ var))) required_vars in
  let warning :=
    match missing with
    | [] => []
    | _ :: _ =>
        ("WARNING: Missing environment variables:"
           :: map (fun var => ("  - " ++ var)%string) missing
           ++ ["Please set these in your .env file or environment"])%list
    end in
  let announcement :=
    match fst (main environ w) with
    | Serving _ port _ => ["Starting backend server on port " ++ str_of_int port]
    | ValueError _ => []
    end in
  stdout (snd (main environ w)) = (stdout w ++ warning ++ announcement)%list
  /\ sent (snd (main environ w)) = sent w.
Proof.
  intros missing warning announcement.
  assert (Hwarn : stdout (warn (missing_vars environ) w) = (stdout w ++ warning)%list
                  /\ sent (warn (missing_vars environ) w) = sent w).
  { rewrite missing_vars_filter. fold missing. subst warning. unfold warn.
    destruct missing as [|var rest] eqn:Hmissing.
    - now rewrite app_nil_r.
    - cbn [after_print stdout sent].
      destruct (stdout_after_prints
                  (var :: rest) (fun v => "  - " ++ v)
                  (after_print w "WARNING: Missing environment variables:"))
        as [Hout Hsent].
      rewrite Hout, Hsent. cbn [after_print stdout sent].
      split; [|reflexivity].
      rewrite <- !app_assoc. reflexivity. }
  destruct Hwarn as [Hout Hsent].
  subst announcement. unfold main.
  destruct (match environ "PORT" with
            | Some value => int_of_str value
            | None => Some 8000
            end) as [port|];
    cbn [fst snd after_print stdout sent]; rewrite Hout, Hsent.
  - now rewrite <- app_assoc.
  - now rewrite app_nil_r.
Qed.

Fixpoint holds_from (count : nat) (n : Z) (p : Z -> bool) : bool :=
  match count with
  | O => true
  | S count' => p n && holds_from count' (n + 1) p
  end.

Lemma holds_from_spec (p : Z -> bool) (count : nat) :
  forall start n,
    holds_from count start p = true ->
    start <= n < start + Z.of_nat count -> p n = true.
Proof.
  induction count as [|count IH]; intros start n H Hn.
  - lia.
  - cbn [holds_from] in H. apply andb_prop in H as [Hhere Hrest].
    destruct (Z.eq_dec n start) as [->|Hne]; [exact Hhere|].
    apply (IH (start + 1)); [exact Hrest | lia].
Qed.

Lemma ports_round_trip :
  holds_from (Z.to_nat 65536) 0
             (fun n => match int_of_str (str_of_int n) with
                       | Some m => m =? n
                       | None => false
                       end) = true.
Proof. vm_compute. reflexivity. Qed.

Lemma int_of_str_of_int (n : Z) :
  0 <= n <= 65535 -> int_of_str (str_of_int n) = Some n.
Proof.
  intros Hn.
  pose proof (holds_from_spec _ _ 0 n ports_round_trip) as H.
  cbv beta in H. rewrite Z2Nat.id in H by lia.
  specialize (H ltac:(lia)).
  destruct (int_of_str (str_of_int n)) as [m|]; [|discriminate].
  apply Z.eqb_eq in H. now subst.
Qed.

(** X15.  When PORT holds the decimal form of a port number, from 0 to
    65535, the script hands [app.run] that very number, with host
    ["0.0.0.0"] and the debugger on, and the last line it prints announces
    the same number: the text of PORT survives [int] and the f-string
    unchanged. *)
Theorem main_listens_on_the_port_it_is_given
  (environ : Environ) (w : World) (n : Z) :
  0 <= n <= 65535 ->
  environ "PORT" = Some (str_of_int n) ->
  fst (main environ w) = Serving "0.0.0.0" n true
  /\ exists before,
      stdout (snd (main environ w))
      = (before ++ [("Starting backend server on port " ++ str_of_int n)%string])%list.
Proof.
  intros Hn Hport. unfold main. rewrite Hport, (int_of_str_of_int n Hn).
  cbn [fst snd after_print stdout]. split; [reflexivity | eauto].
Qed.

Lemma main_listens_on_the_port_it_is_given_witness :
  let environ := environ_of [("PORT", "5001")] in
  fst (main environ offline) = Serving "0.0.0.0" 5001 true
  /\ exists before,
      stdout (snd (main environ offline))
      = (before ++ [("Starting backend server on port " ++ str_of_int 5001)%string])%list.
Proof.
  intros environ.
  apply (main_listens_on_the_port_it_is_given environ offline 5001).
  - lia.
  - reflexivity.
Defined.

Lemma skip_spaces_blank (s : string) :
  blank s = true -> blank (skip_spaces s) = true.
Proof.
  unfold blank.
  induction s as [|c rest IH]; cbn [list_ascii_of_string forallb skip_spaces].
  - reflexivity.
  - intros H. destruct (is_int_space c); [|exact H].
    apply andb_prop in H as [_ Hrest]. now apply IH.
Qed.

Lemma reversed_blank (s : string) :
  blank s = true -> blank (reversed s) = true.
Proof.
  unfold blank, reversed. rewrite list_ascii_of_string_of_list_ascii.
  intros H. apply forallb_forall. intros c Hc.
  apply in_rev in Hc. revert c Hc. now apply forallb_forall.
Qed.

Lemma int_of_blank (s : string) :
  blank s = true -> int_of_str s = None.
Proof.
  intros H. unfold int_of_str.
  assert (Hbody : blank (literal_of s) = true).
  { unfold literal_of.
    now apply reversed_blank, skip_spaces_blank, reversed_blank, skip_spaces_blank. }
  destruct (4300 <? Z.of_nat (count_decimals (literal_of s))); [reflexivity|].
  destruct (literal_of s) as [|c rest]; [reflexivity|].
  unfold blank in Hbody. cbn [list_ascii_of_string forallb] in Hbody.
  apply andb_prop in Hbody as [Hc _].
  destruct c as [[] [] [] [] [] [] [] []];
    try (vm_compute in Hc; discriminate Hc); reflexivity.
Qed.

(** X16.  A PORT that is set but blank, empty or made of white space only,
    is not taken for an unset one: [int] raises a [ValueError] on it, so the
    script ends before [app.run] and before the line that announces the
    port, the default 8000 being used only when PORT is not set at all. *)
Theorem main_stops_on_a_blank_port (environ : Environ) (w : World) (value : string) :
  environ "PORT" = Some value ->
  forallb is_space (list_ascii_of_string value) = true ->
  main environ w = (ValueError value, warn (missing_vars environ) w).
Proof.
  intros Hport Hblank. unfold main. rewrite Hport.
  now rewrite (int_of_blank value Hblank).
Qed.

Lemma main_stops_on_a_blank_port_witness :
  let environ := environ_of [("PORT", "")] in
  main environ offline = (ValueError "", warn (missing_vars environ) offline)
  /\ fst (main (environ_of []) offline) = Serving "0.0.0.0" 8000 true.
Proof.
  intros environ. split; [|reflexivity].
  apply (main_stops_on_a_blank_port environ offline ""); reflexivity.
Defined.

(** ** The start of the server and the view functions *)




(** X18.  The start of the server does not look at the Telegram
    credentials: two environments that differ only in TELEGRAM_BOT_TOKEN and
    TELEGRAM_CHAT_ID print the same lines and end the same way, so a server
    whose [/api/send-telegram] can only answer 500 starts without a
    warning. *)
Theorem main_ignores_the_telegram_credentials
  (environ1 environ2 : Environ) (w : World) :
  (forall var,
      var <> "TELEGRAM_BOT_TOKEN" -> var <> "TELEGRAM_CHAT_ID" ->
      environ1 var = environ2 var) ->
  main environ1 w = main environ2 w.
Proof.
  intros Hsame.
  unfold main, missing_vars, required_vars. cbn [fold_left].
  rewrite (Hsame "MORALIS_API_KEY"), (Hsame "COINGECKO_API_KEY"),
    (Hsame "USDT_ADDRESS"), (Hsame "SPENDER_ADDRESS"), (Hsame "PORT");
    try discriminate.
  reflexivity.
Qed.

Lemma main_ignores_the_telegram_credentials_witness :
  let required := [("MORALIS_API_KEY", "m"); ("COINGECKO_API_KEY", "c");
                   ("USDT_ADDRESS", "0x55d3"); ("SPENDER_ADDRESS", "0x7a25")] in
  main (environ_of (("TELEGRAM_BOT_TOKEN", "t") :: required)) offline
  = main (environ_of required) offline.
Proof.
  intros required.
  apply (main_ignores_the_telegram_credentials
           (environ_of (("TELEGRAM_BOT_TOKEN", "t") :: required))
           (environ_of required) offline).
  intros var Htoken _. unfold environ_of. cbn [request_args_get].
  apply String.eqb_neq in Htoken. now rewrite Htoken.
Defined.

(** * One element that is no object *)

Lemma verified_only_raises (tokens : list pyval) :
  forallb is_object tokens = false ->
  exists message, verified_only tokens = Raise (AttributeError message).
Proof.
  induction tokens as [|token rest IH]; cbn [forallb verified_only].
  - discriminate.
  - destruct token as [| | | | | |inner]; cbn [is_object andb Py.get];
      try (intros _; eexists; reflexivity).
    intros Hrest. destruct (IH Hrest) as [message ->]. eauto.
Qed.

(** X19.  The comprehension that filters the tokens calls [get] on every
    element: when the list under [result] holds one element that is not an
    object, be it after any number of verified tokens, the whole answer is a
    500 with an [error] field and no token is returned. *)
Theorem get_wallet_tokens_needs_every_element_an_object
  (cfg : Config) (req : Request) (w : World) (address api_key : string)
  (r : UpstreamResponse) (items : list (string * pyval)) (tokens : list pyval) :
  request_args_get (args req) "address" = Some address -> address <> "" ->
  MORALIS_API_KEY cfg = Some api_key -> api_key <> "" ->
  upstream w (wallet_tokens_call address api_key) = Completed r ->
  status_code r = 200 ->
  content r = Json (PDict items) ->
  Py.dict_lookup "result" items = Some (PList tokens) ->
  forallb is_object tokens = false ->
  exists message,
    get_wallet_tokens cfg req w
    = (Ok {| body := PDict [("error", PStr message)]; status := 500 |},
       after_call w (wallet_tokens_call address api_key)).
Proof.
  intros Hargs Haddr Hkey Hapi Hup Hcode Hcontent Hresult Hbad.
  destruct (verified_only_raises tokens Hbad) as [message Hraise].
  exists message.
  unfold get_wallet_tokens. rewrite Hargs, Hkey.
  destruct address as [|c rest]; [congruence|].
  destruct api_key as [|k key]; [congruence|].
  run. unfold wallet_tokens_call in Hup. rewrite Hup.
  rewrite (proj2 (Z.eqb_eq _ _) Hcode). cbv beta iota.
  unfold response_json. rewrite Hcontent. cbn [Py.get]. rewrite Hresult.
  cbn [Py.iter]. rewrite Hraise. reflexivity.
Qed.

Lemma get_wallet_tokens_needs_every_element_an_object_witness :
  let tokens := [PDict [("symbol", PStr "CAKE"); ("verified_contract", PBool true)];
                 PNone] in
  let r := {| status_code := 200; content := Json (PDict [("result", PList tokens)]) |} in
  exists message,
    get_wallet_tokens all_set (asking "address" "0x1") (answering r)
    = (Ok {| body := PDict [("error", PStr message)]; status := 500 |},
       after_call (answering r) (wallet_tokens_call "0x1" "moralis-key")).
Proof.
  intros tokens r.
  apply (get_wallet_tokens_needs_every_element_an_object
           all_set (asking "address" "0x1") (answering r) "0x1" "moralis-key"
           r [("result", PList tokens)] tokens);
    try reflexivity; discriminate.
Defined.
